(** * Canvas teacher changes: a shallow embedding of [teacher-changes.py]

    The script snapshots the instructors of every course of a term, compares
    the snapshot with the one saved by the previous run and logs every
    addition and removal to a table.  This file embeds its functions and
    proves properties of them.

    Conventions of the embedding:
    - a Python [str] is a [string]; [None] is the [None] of [option];
    - a [dict] keyed by course name is a [gmap string _], a [set] of names a
      [gset string]; the order in which Python iterates over either is a
      parameter of the model ([dict_iter], [set_iter]);
    - effects (console, HTTP requests, the snapshot file, the table) are
      threaded through an explicit [World]; a raised exception is the
      [Raised] outcome; the two [while] loops take fuel. *)

From Stdlib Require Import ZArith Ascii String List.
From stdpp Require Import base tactics option list gmap sets strings pretty.

Local Open Scope Z_scope.

(** ** Python string primitives used by the script *)

Module PyStr.

(** The character [c] occurs in [chars]. *)
Fixpoint char_in (c : ascii) (chars : string) : bool :=
  match chars with
  | EmptyString => false
  | String d rest => Ascii.eqb c d || char_in c rest
  end.

(** [s.split(sep)] for a one-character separator: never the empty list. *)
Fixpoint split (sep : ascii) (s : string) : list string :=
  match s with
  | EmptyString => [EmptyString]
  | String c rest =>
      if Ascii.eqb c sep then EmptyString :: split sep rest
      else match split sep rest with
           | piece :: pieces => String c piece :: pieces
           | [] => [String c EmptyString]
           end
  end.

(** [s.startswith(pat)]. *)
Fixpoint startswith (pat s : string) : bool :=
  match pat, s with
  | EmptyString, _ => true
  | String _ _, EmptyString => false
  | String a pat', String b s' => Ascii.eqb a b && startswith pat' s'
  end.

(** [pat in s]: [pat] occurs in [s] as a substring. *)
Fixpoint contains (pat s : string) : bool :=
  startswith pat s ||
  match s with
  | EmptyString => false
  | String _ s' => contains pat s'
  end.

(** [s.lstrip(chars)]. *)
Fixpoint lstrip (chars s : string) : string :=
  match s with
  | EmptyString => EmptyString
  | String c rest => if char_in c chars then lstrip chars rest else s
  end.

(** [s.rstrip(chars)]. *)
Fixpoint rstrip (chars s : string) : string :=
  match s with
  | EmptyString => EmptyString
  | String c rest =>
      match rstrip chars rest with
      | EmptyString => if char_in c chars then EmptyString else String c EmptyString
      | kept => String c kept
      end
  end.

(** [s.strip(chars)]. *)
Definition strip (chars s : string) : string := rstrip chars (lstrip chars s).

(** [sep.join(pieces)]. *)
Fixpoint join (sep : string) (pieces : list string) : string :=
  match pieces with
  | [] => EmptyString
  | [p] => p
  | p :: rest => p +:+ sep +:+ join sep rest
  end.

(** Truth value of a string: the empty string is false. *)
Definition truthy (s : string) : bool :=
  match s with EmptyString => false | String _ _ => true end.

(** Truth value of an optional string: [None] and [''] are false. *)
Definition truthy_opt (o : option string) : bool :=
  match o with None => false | Some s => truthy s end.

End PyStr.

(** [s[n:]]. *)
Fixpoint string_drop (n : nat) (s : string) : string :=
  match n, s with
  | O, _ => s
  | S _, EmptyString => EmptyString
  | S n', String _ s' => string_drop n' s'
  end.

(** The double quote character. *)
Definition dquote : ascii := "034"%char.

(** The text [rel="next"] searched for in every entry of a Link header. *)
Definition rel_next : string :=
  Eval cbv in "rel=" +:+ String dquote ("next" +:+ String dquote EmptyString).

(** The body of the [for link in links] loop of [get_next_link]. *)
Fixpoint next_in_links (links : list string) : option string :=
  match links with
  | [] => None
  | link :: rest =>
      if PyStr.contains rel_next link
      then Some (PyStr.strip "<>" (default EmptyString (head (PyStr.split ";" link))))
      else next_in_links rest
  end.

(** [get_next_link(link_header)]: the argument is [response.headers.get('Link')],
    so it is [None] when the header is absent. *)
Definition get_next_link (link_header : option string) : option string :=
  match link_header with
  | Some h => if PyStr.truthy h then next_in_links (PyStr.split "," h) else None
  | None => None
  end.

(** A Link header entry [<url>; rel="relation"]. *)
Definition link_entry (url relation : string) : string :=
  "<" +:+ url +:+ ">; rel=" +:+ String dquote (relation +:+ String dquote EmptyString).

(** ** Data model *)

(** A resource object of the upstream API, with the two fields the script
    reads: [obj['id']] and [obj['name']].  Courses and users are both such
    objects. *)
Record resource := Resource { res_id : Z; res_name : string }.

(** The values that reach the parameters [headers] and [course_id] of the
    fetch functions: an integer id or a dictionary of HTTP headers. *)
Inductive pyval :=
  | PyInt (n : Z)
  | PyHeaders (h : list (string * string)).

(** One HTTP GET as [requests.get(url, headers=..., params=...)] sends it. *)
Record request := Request {
  req_url : string;
  req_headers : list (string * string);
  req_params : list (string * string)
}.

(** What comes back: no response at all, or a status, the decoded JSON body
    and the [Link] header if there is one. *)
Inductive reply :=
  | TransportError
  | Response (status : Z) (items : list resource) (link : option string).

(** The exceptions of the model. *)
Inductive exn :=
  | ConnectionError
  | HTTPError (status : Z)
  | AttributeError.

(** The [action] column of [teacher_changes]. *)
Inductive action := removed | added.

(** A row of [teacher_changes], as [log_teacher_change] inserts it. *)
Record change := Change {
  ch_course : string;
  ch_action : action;
  ch_teacher : string
}.

(** The lines the script prints (time stamps left out). *)
Inductive line :=
  | LStarted
  | LDbError
  | LConnectFailed
  | LRemoved (course teacher : string)
  | LAdded (course teacher : string)
  | LNoPrevious
  | LFinished.

(** The JSON object [json.dump] writes: its members in order, every value an
    array of strings. *)
Definition json_doc := list (string * list string).

(** The handle [mysql.connector.connect] returns. *)
Inductive connection := Conn.

(** Everything outside the process that the script reads or changes. *)
Record World := MkWorld {
  db_reachable : bool;                 (* does [connect] succeed? *)
  db_open : bool;                      (* is a connection open? *)
  table : list change;                 (* rows of [teacher_changes], oldest first *)
  snapshot_file : option json_doc;     (* [teachers_list.json], if it exists *)
  http_log : list request;             (* requests sent, oldest first *)
  console : list line                  (* lines printed, oldest first *)
}.

Definition set_db_open (b : bool) (w : World) : World :=
  MkWorld (db_reachable w) b (table w) (snapshot_file w) (http_log w) (console w).
Definition add_row (r : change) (w : World) : World :=
  MkWorld (db_reachable w) (db_open w) (table w ++ [r]) (snapshot_file w) (http_log w) (console w).
Definition write_file (d : json_doc) (w : World) : World :=
  MkWorld (db_reachable w) (db_open w) (table w) (Some d) (http_log w) (console w).
Definition add_request (r : request) (w : World) : World :=
  MkWorld (db_reachable w) (db_open w) (table w) (snapshot_file w) (http_log w ++ [r]) (console w).
Definition add_line (l : line) (w : World) : World :=
  MkWorld (db_reachable w) (db_open w) (table w) (snapshot_file w) (http_log w) (console w ++ [l]).

(** ** Computations: state passing with exceptions and fuel *)

Inductive outcome (A : Type) :=
  | Returned (a : A)
  | Raised (e : exn)
  | OutOfFuel.
Arguments Returned {A} a.
Arguments Raised {A} e.
Arguments OutOfFuel {A}.

Definition M (A : Type) : Type := World → outcome A * World.

Definition ret {A} (a : A) : M A := λ w, (Returned a, w).
Definition raise {A} (e : exn) : M A := λ w, (Raised e, w).
Definition diverge {A} : M A := λ w, (OutOfFuel, w).
Definition bind {A B} (m : M A) (f : A → M B) : M B :=
  λ w, match m w with
       | (Returned a, w') => f a w'
       | (Raised e, w') => (Raised e, w')
       | (OutOfFuel, w') => (OutOfFuel, w')
       end.
Definition modify (f : World → World) : M unit := λ w, (Returned tt, f w).
Definition inspect {A} (f : World → A) : M A := λ w, (Returned (f w), w).

Declare Scope py_scope.
Delimit Scope py_scope with py.
Notation "'let*' x := m 'in' k" := (bind m (λ x, k))
  (at level 10, x name, m at level 100, k at level 200) : py_scope.
Notation "m ;;; k" := (bind m (λ _, k))
  (at level 100, right associativity) : py_scope.
Local Open Scope py_scope.

(** [for x in xs: body x]. *)
Fixpoint for_each {A} (xs : list A) (body : A → M unit) : M unit :=
  match xs with
  | [] => ret tt
  | x :: rest => body x ;;; for_each rest body
  end.

Definition print (l : line) : M unit := modify (add_line l).

Definition is_out_of_fuel {A} (o : outcome A) : bool :=
  match o with OutOfFuel => true | _ => false end.

(** ** Constants of the script *)

Definition API_URL : string := "https://calstatela.instructure.com/api/v1".
Definition ENROLLMENT_TERM_ID : string := "335".
Definition ACCOUNT_ID : string := "1".

Definition courses_params : list (string * string) :=
  [("enrollment_term_id", ENROLLMENT_TERM_ID); ("per_page", "100")].
Definition instructors_params : list (string * string) :=
  [("enrollment_type", "teacher"); ("per_page", "100")].

(** A snapshot: course name to the set of its instructors' names. *)
Abbreviation snapshot := (gmap string (gset string)).

(** The dictionary [json.load] builds from the members of an object: a
    repeated key keeps its last value. *)
Definition dict_of_members {V} (members : list (string * V)) : gmap string V :=
  foldl (λ d kv, <[kv.1 := kv.2]> d) ∅ members.

(** ** The functions of the script *)

Section Script.

(** The upstream API. *)
Variable server : request → reply.
(** The token read from [config.ini]. *)
Variable API_KEY : string.
(** The order in which Python iterates over a set, and over the items of a
    dictionary. *)
Variable set_iter : gset string → list string.
Variable dict_iter : ∀ V, gmap string V → list (string * V).
(** The order in which [as_completed] yields the futures handed to it. *)
Variable as_completed :
  list (resource * outcome (gset string)) → list (resource * outcome (gset string)).
(** [str(d)] of a dictionary of headers. *)
Variable repr_headers : list (string * string) → string.

(** [f"{v}"]. *)
Definition py_format (v : pyval) : string :=
  match v with
  | PyInt n => pretty n
  | PyHeaders h => repr_headers h
  end.

(** Sending a prepared request: a transport failure raises. *)
Definition send (r : request) : M (Z * list resource * option string) :=
  modify (add_request r) ;;;
  match server r with
  | TransportError => raise ConnectionError
  | Response status items link => ret (status, items, link)
  end.

(** [requests.get(url, headers=headers, params=params)].  The library
    iterates over [headers.items()] when [headers] is truthy, so an integer
    other than 0 raises before anything is sent, and 0 counts as no
    headers. *)
Definition requests_get (url : string) (headers : pyval)
    (params : list (string * string)) : M (Z * list resource * option string) :=
  match headers with
  | PyHeaders h => send (Request url h params)
  | PyInt n => if n =? 0 then send (Request url [] params) else raise AttributeError
  end.

(** [response.raise_for_status()]: 4xx and 5xx raise. *)
Definition raise_for_status (status : Z) : M unit :=
  if (400 <=? status) && (status <? 600) then raise (HTTPError status) else ret tt.

(** The loop shared by [fetch_courses] and [fetch_instructors_for_course]:
[[
    while endpoint:
        response = requests.get(endpoint, headers=headers, params=params)
        response.raise_for_status()
        items.extend(response.json())
        endpoint = get_next_link(response.headers.get('Link'))
]]
    [fuel] bounds the number of iterations. *)
Fixpoint paginate (fuel : nat) (headers : pyval) (params : list (string * string))
    (endpoint : option string) (items : list resource) : M (list resource) :=
  match endpoint with
  | Some url =>
      if PyStr.truthy url then
        match fuel with
        | O => diverge
        | S fuel' =>
            let* response := requests_get url headers params in
            let '(status, page, link) := response in
            raise_for_status status ;;;
            paginate fuel' headers params (get_next_link link) (items ++ page)
        end
      else ret items
  | None => ret items
  end.

Definition fetch_courses (fuel : nat) (headers : pyval) (courses_endpoint : string)
    (params : list (string * string)) : M (list resource) :=
  paginate fuel headers params (Some courses_endpoint) [].

(** The loop of [fetch_instructors_for_course], before the names are
    collected into a set. *)
Definition instructors_loop (fuel : nat) (headers course_id : pyval) : M (list resource) :=
  let instructors_endpoint := API_URL +:+ "/courses/" +:+ py_format course_id +:+ "/users" in
  paginate fuel headers instructors_params (Some instructors_endpoint) [].

Definition fetch_instructors_for_course (fuel : nat) (headers course_id : pyval)
    : M (gset string) :=
  let* instructors := instructors_loop fuel headers course_id in
  ret (list_to_set (res_name <$> instructors)).


Definition create_db_connection : M (option connection) :=
  let* reachable := inspect db_reachable in
  if reachable then modify (set_db_open true) ;;; ret (Some Conn)
  else print LDbError ;;; ret None.

Definition log_teacher_change (conn : connection) (course : string) (act : action)
    (teacher : string) : M unit :=
  modify (add_row (Change course act teacher)).

(** Running the submitted tasks: each one ends in an outcome that its future
    keeps, and a task that raises does not stop the others.  The upstream
    answers a request by what the request is, so no task sees what another
    does; their requests are logged task by task. *)
Fixpoint submit_all (fuel : nat) (headers : pyval) (courses : list resource)
    : World → list (resource * outcome (gset string)) * World :=
  λ w, match courses with
       | [] => ([], w)
       | course :: rest =>
           let '(o, w1) := fetch_instructors_for_course fuel headers (PyInt (res_id course)) w in
           let '(futures, w2) := submit_all fuel headers rest w1 in
           ((course, o) :: futures, w2)
       end.

(** The [for future in as_completed(...)] loop: [future.result()] returns
    the names or raises what the task raised. *)
Fixpoint collect (done : list (resource * outcome (gset string))) (teachers : snapshot)
    : M snapshot :=
  match done with
  | [] => ret teachers
  | (course, Returned teacher_names) :: rest =>
      collect rest (<[res_name course := teacher_names]> teachers)
  | (_, Raised e) :: _ => raise e
  | (_, OutOfFuel) :: _ => diverge
  end.

(** Leaving the [with] block waits for every task, also when an exception
    is on its way out: a task that never ends keeps the run from ending. *)
Definition fetch_current_teachers (fuel : nat) : M snapshot :=
  let headers := PyHeaders [("Authorization", "Bearer " +:+ API_KEY)] in
  let courses_endpoint := API_URL +:+ "/accounts/" +:+ ACCOUNT_ID +:+ "/courses" in
  let* courses := fetch_courses fuel headers courses_endpoint courses_params in
  λ w, let '(futures, w') := submit_all fuel headers courses w in
       if existsb (λ f, is_out_of_fuel f.2) futures then (OutOfFuel, w')
       else collect (as_completed futures) ∅ w'.

Definition save_teachers_list (teachers : snapshot) : M unit :=
  let teachers_for_json : gmap string (list string) := set_iter <$> teachers in
  modify (write_file (dict_iter _ teachers_for_json)).

Definition load_teachers_list : M (option snapshot) :=
  let* file := inspect snapshot_file in
  match file with
  | Some doc =>
      let teachers : gmap string (list string) := dict_of_members doc in
      ret (Some (list_to_set <$> teachers))
  | None => ret None
  end.

(** The body of the loop of [compare_teachers] for one course. *)
Definition compare_course (old_list : snapshot) (conn : connection)
    (item : string * gset string) : M unit :=
  let '(course, new_teachers) := item in
  let old_teachers := default ∅ (old_list !! course) in
  let removed_teachers := old_teachers ∖ new_teachers in
  for_each (set_iter removed_teachers) (λ teacher,
    print (LRemoved course teacher) ;;;
    log_teacher_change conn course removed teacher) ;;;
  let added_teachers := new_teachers ∖ old_teachers in
  for_each (set_iter added_teachers) (λ teacher,
    print (LAdded course teacher) ;;;
    log_teacher_change conn course added teacher).

Definition compare_teachers (old_list new_list : snapshot) (conn : connection) : M unit :=
  for_each (dict_iter _ new_list) (compare_course old_list conn).

Definition main (fuel : nat) : M unit :=
  print LStarted ;;;
  let* db_connection := create_db_connection in
  match db_connection with
  | None => print LConnectFailed ;;; ret tt
  | Some conn =>
      let* current_teachers := fetch_current_teachers fuel in
      let* previous_teachers := load_teachers_list in
      match previous_teachers with
      | Some previous => compare_teachers previous current_teachers conn
      | None => print LNoPrevious
      end ;;;
      save_teachers_list current_teachers ;;;
      modify (set_db_open false) ;;;
      print LFinished
  end.

(** The rows a call of [compare_teachers] inserts, in order. *)
Definition course_changes (old_list : snapshot) (item : string * gset string) : list change :=
  let '(course, new_teachers) := item in
  let old_teachers := default ∅ (old_list !! course) in
  (Change course removed <$> set_iter (old_teachers ∖ new_teachers)) ++
  (Change course added <$> set_iter (new_teachers ∖ old_teachers)).

Definition diff (old_list new_list : snapshot) : list change :=
  dict_iter _ new_list ≫= course_changes old_list.

End Script.

(** ** Observations on a run *)

(** The rows, requests and lines a run from [w] to [w'] added. *)
Definition new_rows (w w' : World) : list change := drop (length (table w)) (table w').
Definition new_requests (w w' : World) : list request := drop (length (http_log w)) (http_log w').
Definition new_lines (w w' : World) : list line := drop (length (console w)) (console w').

(** The rows a computation inserts when it is run from [w]. *)
Definition logged {A} (m : M A) (w : World) : list change := new_rows w (m w).2.

(** The requests a computation sends when it is run from [w]. *)
Definition sent {A} (m : M A) (w : World) : list request := new_requests w (m w).2.

(** The line printed with a row. *)
Definition line_of_change (r : change) : line :=
  match ch_action r with
  | removed => LRemoved (ch_course r) (ch_teacher r)
  | added => LAdded (ch_course r) (ch_teacher r)
  end.

(** The world after [rows] were printed and inserted one by one. *)
Definition record_changes (rows : list change) (w : World) : World :=
  MkWorld (db_reachable w) (db_open w) (table w ++ rows) (snapshot_file w) (http_log w)
    (console w ++ (line_of_change <$> rows)).

(** The world after [requests] were sent. *)
Definition add_requests (requests : list request) (w : World) : World :=
  MkWorld (db_reachable w) (db_open w) (table w) (snapshot_file w) (http_log w ++ requests)
    (console w).

(** [dict[key]], the empty set standing for a missing key. *)
Definition members (d : snapshot) (course : string) : gset string :=
  default ∅ (d !! course).

(** The world [main] leaves when the fetch returned [current_teachers] in
    world [w]: the rows of the diff if there is a stored snapshot, the
    rewritten file, the closed connection. *)
Definition finish (set_iter : gset string → list string)
    (dict_iter : ∀ V, gmap string V → list (string * V))
    (current_teachers : snapshot) (w : World) : World :=
  let compared :=
    match snapshot_file w with
    | Some doc =>
        record_changes
          (diff set_iter dict_iter (list_to_set <$> dict_of_members doc) current_teachers) w
    | None => add_line LNoPrevious w
    end in
  add_line LFinished
    (set_db_open false
       (write_file (dict_iter _ (set_iter <$> current_teachers)) compared)).

(** Did the request fail: no response, or a status [raise_for_status] rejects? *)
Definition request_fails (server : request → reply) (r : request) : bool :=
  match server r with
  | TransportError => true
  | Response status _ _ => (400 <=? status) && (status <? 600)
  end.

(** The listing that starts at [url] consists of [pages]: every request is
    answered with a status [raise_for_status] accepts and the items of the
    page, every page but the last with a Link header whose [next] entry is the
    URL of the following page, the last with none. *)
Fixpoint serves (server : request → reply) (headers params : list (string * string))
    (url : string) (pages : list (list resource)) : Prop :=
  match pages with
  | [] => False
  | page :: rest =>
      PyStr.truthy url = true ∧
      ∃ status link,
        server (Request url headers params) = Response status page link ∧
        (400 <=? status) && (status <? 600) = false ∧
        match rest with
        | [] => get_next_link link = None
        | _ :: _ => ∃ next, get_next_link link = Some next ∧ serves server headers params next rest
        end
  end.

(** The URL [fetch_instructors_for_course] starts from. *)
Definition users_url (course_id : Z) : string :=
  API_URL +:+ "/courses/" +:+ pretty course_id +:+ "/users".

(** ** Link headers, as the upstream API writes them *)

(** A piece of a Link header between two commas: an entry, or other text. *)
Inductive piece :=
  | Entry (url relation : string)
  | Junk (text : string).

Definition render (p : piece) : string :=
  match p with
  | Entry url relation => link_entry url relation
  | Junk text => text
  end.

(** The URL of the first entry whose relation is [next]. *)
Fixpoint select_next (pieces : list piece) : option string :=
  match pieces with
  | [] => None
  | Entry url relation :: rest =>
      if String.eqb relation "next" then Some url else select_next rest
  | Junk _ :: rest => select_next rest
  end.

(** The pieces [get_next_link] reads as intended: no piece holds a comma, no
    URL or relation holds a double quote, other text does not hold
    [rel="next"], and the URL of a [next] entry holds no semicolon and is left
    alone by [strip('<>')]. *)
Definition well_formed (p : piece) : Prop :=
  match p with
  | Entry url relation =>
      PyStr.char_in "," url = false ∧ PyStr.char_in "," relation = false ∧
      PyStr.char_in dquote url = false ∧ PyStr.char_in dquote relation = false ∧
      (relation = "next" → PyStr.char_in ";" url = false ∧ PyStr.strip "<>" url = url)
  | Junk text =>
      PyStr.char_in "," text = false ∧ PyStr.contains rel_next text = false
  end.

(** ** Sample data *)

(** Python iterating in the order of stdpp's enumerations, and in the
    opposite order for dictionaries. *)
Definition iter_items : ∀ V, gmap string V → list (string * V) := λ V m, map_to_list m.
Definition iter_items_rev : ∀ V, gmap string V → list (string * V) :=
  λ V m, reverse (map_to_list m).

(** A world before the first run: the store is reachable, nothing else is there. *)
Definition fresh_world : World := MkWorld true false [] None [] [].

(** The same with the store out of reach. *)
Definition offline_world : World := MkWorld false false [] None [] [].

Definition sample_old : snapshot :=
  {[ "CS101" := {[ "Alice"; "Bob" ]}; "CS200" := {[ "Dan" ]} ]}.
Definition sample_new : snapshot :=
  {[ "CS101" := {[ "Bob"; "Carol" ]}; "CS102" := {[ "Eve" ]} ]}.

(** [str(d)] for headers whose names and values need no escaping. *)
Definition sample_repr_headers (h : list (string * string)) : string :=
  "{" +:+ PyStr.join ", " ((λ kv, "'" +:+ kv.1 +:+ "': '" +:+ kv.2 +:+ "'") <$> h) +:+ "}".

Definition sample_key : string := "s3cr3t".
Definition sample_headers : list (string * string) :=
  [("Authorization", "Bearer " +:+ sample_key)].

Definition courses_url : string :=
  Eval cbv in API_URL +:+ "/accounts/" +:+ ACCOUNT_ID +:+ "/courses".
Definition courses_url_page2 : string := Eval cbv in courses_url +:+ "?page=2".

(** An upstream with two pages of courses, [CS102] being on both, and one
    page of instructors for each course. *)
Definition sample_server (r : request) : reply :=
  if String.eqb (req_url r) courses_url then
    Response 200 [Resource 11 "CS101"; Resource 12 "CS102"]
      (Some (link_entry courses_url "current" +:+ "," +:+ link_entry courses_url_page2 "next"))
  else if String.eqb (req_url r) courses_url_page2 then
    Response 200 [Resource 12 "CS102"; Resource 13 "CS103"]
      (Some (link_entry courses_url "prev" +:+ "," +:+ link_entry courses_url_page2 "current"))
  else if String.eqb (req_url r) (users_url 11) then
    Response 200 [Resource 1 "Alice"; Resource 2 "Bob"] None
  else if String.eqb (req_url r) (users_url 12) then
    Response 200 [Resource 3 "Carol"] None
  else if String.eqb (req_url r) (users_url 13) then
    Response 200 [] None
  else Response 404 [] None.

(** The same upstream, except that the instructors of [CS102] cannot be had. *)
Definition flaky_server (r : request) : reply :=
  if String.eqb (req_url r) (users_url 12) then Response 503 [] None else sample_server r.

(** Futures completing in the order they were submitted. *)
Definition in_submission_order :
    list (resource * outcome (gset string)) → list (resource * outcome (gset string)) :=
  λ futures, futures.


(** A Link header with four pieces. *)
Definition sample_pieces : list piece :=
  [Entry courses_url "current"; Junk "rel=next"; Entry courses_url_page2 "next";
   Entry courses_url_page2 "last"].

(** An upstream whose course listing names itself as its next page. *)
Definition looping_server (r : request) : reply :=
  if String.eqb (req_url r) courses_url then
    Response 200 [Resource 11 "CS101"] (Some (link_entry courses_url "next"))
  else Response 404 [] None.


(** * Proofs *)

(** ** Strings *)

Section StringFacts.

Local Arguments String.append !_ _ /.

Lemma append_assoc (a b c : string) : (a +:+ b) +:+ c = a +:+ (b +:+ c).
Proof. induction a as [|x a IH]; simpl; [done | by rewrite IH]. Qed.

Lemma append_empty_r (a : string) : a +:+ "" = a.
Proof. induction a as [|x a IH]; simpl; [done | by rewrite IH]. Qed.

Lemma char_in_append c (a b : string) :
  PyStr.char_in c (a +:+ b) = PyStr.char_in c a || PyStr.char_in c b.
Proof.
  induction a as [|x a IH]; simpl; [done |].
  by rewrite IH, orb_assoc.
Qed.

Lemma split_not_nil sep s : PyStr.split sep s ≠ [].
Proof.
  destruct s as [|c s]; simpl; [done |].
  destruct (Ascii.eqb c sep); [done |].
  by destruct (PyStr.split sep s).
Qed.

(** A text without the separator is one piece. *)
Lemma split_one sep s : PyStr.char_in sep s = false → PyStr.split sep s = [s].
Proof.
  induction s as [|c s IH]; simpl; [done |].
  rewrite Ascii.eqb_sym. intros [Hc Hs]%orb_false_iff.
  by rewrite Hc, (IH Hs).
Qed.

(** Splitting stops the first piece at the first separator. *)
Lemma split_append sep s t :
  PyStr.char_in sep s = false →
  PyStr.split sep (s +:+ String sep t) = s :: PyStr.split sep t.
Proof.
  induction s as [|c s IH]; simpl.
  - intros _. by rewrite Ascii.eqb_refl.
  - rewrite Ascii.eqb_sym. intros [Hc Hs]%orb_false_iff.
    by rewrite Hc, (IH Hs).
Qed.

Lemma split_join sep (pieces : list string) :
  pieces ≠ [] →
  Forall (λ p, PyStr.char_in sep p = false) pieces →
  PyStr.split sep (PyStr.join (String sep "") pieces) = pieces.
Proof.
  intros Hne Hall. induction Hall as [|p rest Hp Hrest IH]; [done |].
  destruct rest as [|q rest].
  - simpl. by apply split_one.
  - change (PyStr.split sep (p +:+ String sep (PyStr.join (String sep "") (q :: rest)))
            = p :: q :: rest).
    rewrite split_append by done. f_equal. by apply IH.
Qed.

Lemma rstrip_snoc chars s c :
  PyStr.char_in c chars = true →
  PyStr.rstrip chars (s +:+ String c "") = PyStr.rstrip chars s.
Proof.
  intros Hc. induction s as [|x s IH]; simpl; [by rewrite Hc |].
  by rewrite IH.
Qed.

Lemma strip_snoc chars s c :
  PyStr.char_in c chars = true →
  PyStr.strip chars (s +:+ String c "") = PyStr.strip chars s.
Proof.
  intros Hc. unfold PyStr.strip. induction s as [|x s IH]; simpl.
  - by rewrite Hc.
  - destruct (PyStr.char_in x chars); [done |].
    by apply (rstrip_snoc chars (String x s)).
Qed.

(** [strip('<>')] removes the brackets around a URL; what it then does to
    the URL is what it does to the URL alone. *)
Lemma strip_brackets url :
  PyStr.strip "<>" ("<" +:+ url +:+ ">") = PyStr.strip "<>" url.
Proof.
  change (PyStr.strip "<>" ("<" +:+ url +:+ ">"))
    with (PyStr.strip "<>" (url +:+ ">")).
  by apply strip_snoc.
Qed.

Lemma startswith_cons a pat b s :
  PyStr.startswith (String a pat) (String b s) = Ascii.eqb a b && PyStr.startswith pat s.
Proof. reflexivity. Qed.

Lemma contains_cons pat c s :
  PyStr.contains pat (String c s) = PyStr.startswith pat (String c s) || PyStr.contains pat s.
Proof. reflexivity. Qed.

(** [rel="next"] cannot start inside a text without double quote, unless
    the text stops within [rel=] and what follows goes on with the rest. *)
Lemma rel_next_not_before_quote s t :
  PyStr.char_in dquote s = false →
  (∀ k, (1 ≤ k ≤ 4)%nat → PyStr.startswith (string_drop k rel_next) t = false) →
  s ≠ "" →
  PyStr.startswith rel_next (s +:+ t) = false.
Proof.
  intros Hs Ht Hne.
  pose proof (Ht 1%nat ltac:(lia)) as H1. pose proof (Ht 2%nat ltac:(lia)) as H2.
  pose proof (Ht 3%nat ltac:(lia)) as H3. pose proof (Ht 4%nat ltac:(lia)) as H4.
  cbv [string_drop rel_next] in H1, H2, H3, H4. unfold rel_next.
  destruct s as [|c0 [|c1 [|c2 [|c3 [|c4 s]]]]]; [done |..];
    cbn [String.append]; rewrite ?startswith_cons;
    rewrite ?H1, ?H2, ?H3, ?H4, ?andb_false_r; [done..|].
  cbn [PyStr.char_in] in Hs.
  do 4 (apply orb_false_iff in Hs as [_ Hs]).
  apply orb_false_iff in Hs as [Hq _].
  fold dquote. by rewrite Hq, ?andb_false_r.
Qed.

Lemma contains_rel_next_skip s t :
  PyStr.char_in dquote s = false →
  (∀ k, (1 ≤ k ≤ 4)%nat → PyStr.startswith (string_drop k rel_next) t = false) →
  PyStr.contains rel_next (s +:+ t) = PyStr.contains rel_next t.
Proof.
  intros Hs Ht. induction s as [|c s IH]; [done |].
  change (String c s +:+ t) with (String c (s +:+ t)). rewrite contains_cons.
  change (String c (s +:+ t)) with (String c s +:+ t).
  rewrite (rel_next_not_before_quote (String c s) t) by done.
  cbn [PyStr.char_in] in Hs. apply orb_false_iff in Hs as [_ Hs].
  by rewrite IH.
Qed.

(** After [rel="], the text [next"] follows exactly when the relation is
    [next]. *)
Lemma startswith_next_quote relation :
  PyStr.char_in dquote relation = false →
  PyStr.startswith ("next" +:+ String dquote "") (relation +:+ String dquote "")
  = String.eqb relation "next".
Proof.
  intros Hq.
  destruct relation as [|c0 [|c1 [|c2 [|c3 [|c4 s]]]]];
    cbn [String.append String.eqb PyStr.startswith];
    rewrite ?andb_true_r, ?andb_false_r; try reflexivity.
  all: try (cbn [PyStr.char_in] in Hq;
            do 4 (apply orb_false_iff in Hq as [_ Hq]);
            apply orb_false_iff in Hq as [Hq _];
            fold dquote; rewrite Hq, ?andb_false_r).
  all: rewrite ?(Ascii.eqb_sym "n" c0), ?(Ascii.eqb_sym "e" c1),
         ?(Ascii.eqb_sym "x" c2), ?(Ascii.eqb_sym "t" c3).
  all: repeat match goal with
         | |- context [Ascii.eqb ?c ?d] => destruct (Ascii.eqb c d)
         end; reflexivity.
Qed.

(** An entry holds [rel="next"] exactly when its relation is [next]. *)
Lemma contains_rel_next_entry url relation :
  PyStr.char_in dquote url = false →
  PyStr.char_in dquote relation = false →
  PyStr.contains rel_next (link_entry url relation) = String.eqb relation "next".
Proof.
  intros Hu Hr. unfold link_entry.
  replace ("<" +:+ url +:+ ">; rel=" +:+ String dquote (relation +:+ String dquote ""))
    with (("<" +:+ url +:+ ">; ") +:+ ("rel=" +:+ String dquote (relation +:+ String dquote "")))
    by (cbn [String.append]; by rewrite append_assoc).
  rewrite contains_rel_next_skip.
  - cbn [String.append]. rewrite !contains_cons.
    rewrite (contains_rel_next_skip relation) by
      (try done; intros k Hk;
       assert (k = 1 ∨ k = 2 ∨ k = 3 ∨ k = 4)%nat as [->|[->|[->| ->]]] by lia;
       reflexivity).
    change (PyStr.contains rel_next (String dquote "")) with false.
    rewrite !orb_false_r.
    rewrite <- (startswith_next_quote relation) by done.
    reflexivity.
  - cbn [String.append PyStr.char_in]. rewrite char_in_append, Hu. reflexivity.
  - intros k Hk.
    assert (k = 1 ∨ k = 2 ∨ k = 3 ∨ k = 4)%nat as [->|[->|[->| ->]]] by lia;
      reflexivity.
Qed.

End StringFacts.

(** ** [get_next_link] *)

Section NextLink.

Local Arguments String.append !_ _ /.

Lemma render_no_comma p : well_formed p → PyStr.char_in "," (render p) = false.
Proof.
  destruct p as [url relation|text]; simpl; [|by intros [? _]].
  intros (Hu & Hr & _). unfold link_entry.
  rewrite char_in_append. cbn [String.append PyStr.char_in].
  rewrite !char_in_append, Hu, Hr. reflexivity.
Qed.

Lemma render_contains p :
  well_formed p →
  PyStr.contains rel_next (render p)
  = match p with Entry _ relation => String.eqb relation "next" | Junk _ => false end.
Proof.
  destruct p as [url relation|text]; simpl; [|by intros [_ ?]].
  intros (_ & _ & Hu & Hr & _). by apply contains_rel_next_entry.
Qed.

(** What the selected entry is cut down to. *)
Lemma entry_url url :
  PyStr.char_in ";" url = false →
  PyStr.strip "<>" (default "" (head (PyStr.split ";" (link_entry url "next"))))
  = PyStr.strip "<>" url.
Proof.
  intros Hu. unfold link_entry.
  replace ("<" +:+ url +:+ ">; rel=" +:+ String dquote ("next" +:+ String dquote ""))
    with (("<" +:+ url +:+ ">") +:+
          String ";" (" rel=" +:+ String dquote ("next" +:+ String dquote "")))
    by (cbn [String.append]; by rewrite append_assoc).
  rewrite split_append.
  - simpl head. simpl default. apply strip_brackets.
  - cbn [String.append PyStr.char_in]. rewrite char_in_append, Hu. reflexivity.
Qed.

Lemma next_in_links_render pieces :
  Forall well_formed pieces →
  next_in_links (render <$> pieces) = select_next pieces.
Proof.
  induction 1 as [|p rest Hp _ IH]; [done |].
  cbn [fmap list_fmap next_in_links]. rewrite render_contains by done.
  destruct p as [url relation|text]; cbn [render select_next]; [|done].
  destruct (String.eqb_spec relation "next") as [->|_]; [|done].
  destruct Hp as (_ & _ & _ & _ & Hnext).
  destruct (Hnext eq_refl) as [Hsemi Hstrip].
  by rewrite entry_url, Hstrip.
Qed.

Lemma join_truthy sep p q rest :
  PyStr.truthy (PyStr.join (String sep "") (p :: q :: rest)) = true.
Proof.
  change (PyStr.join (String sep "") (p :: q :: rest))
    with (p +:+ String sep (PyStr.join (String sep "") (q :: rest))).
  by destruct p.
Qed.

Lemma get_next_link_render pieces :
  Forall well_formed pieces →
  get_next_link (Some (PyStr.join "," (render <$> pieces))) = select_next pieces.
Proof.
  intros Hwf. unfold get_next_link.
  destruct (PyStr.truthy (PyStr.join "," (render <$> pieces))) eqn:Htruthy.
  - rewrite split_join.
    + by apply next_in_links_render.
    + by destruct pieces.
    + apply Forall_fmap. eapply Forall_impl; [exact Hwf |].
      intros p Hp. by apply render_no_comma.
  - destruct pieces as [|p [|q rest]]; [done | |].
    + destruct p as [url relation|text]; [done |].
      simpl in Htruthy. by destruct text.
    + cbn [fmap list_fmap] in Htruthy. by rewrite join_truthy in Htruthy.
Qed.

End NextLink.

(** ** Worlds *)

Lemma record_changes_nil w : record_changes [] w = w.
Proof. destruct w. unfold record_changes. simpl. by rewrite !app_nil_r. Qed.

Lemma record_changes_app rows1 rows2 w :
  record_changes rows2 (record_changes rows1 w) = record_changes (rows1 ++ rows2) w.
Proof. unfold record_changes. simpl. by rewrite fmap_app, !app_assoc. Qed.

Lemma new_rows_record_changes rows w : new_rows w (record_changes rows w) = rows.
Proof. unfold new_rows. simpl. by rewrite drop_app_length. Qed.

Lemma add_requests_nil w : add_requests [] w = w.
Proof. destruct w. unfold add_requests. simpl. by rewrite app_nil_r. Qed.

Lemma add_requests_app rs1 rs2 w :
  add_requests rs2 (add_requests rs1 w) = add_requests (rs1 ++ rs2) w.
Proof. unfold add_requests. simpl. by rewrite app_assoc. Qed.

Lemma new_requests_add_requests rs w : new_requests w (add_requests rs w) = rs.
Proof. unfold new_requests. simpl. by rewrite drop_app_length. Qed.

(** ** The diff *)

Section Diff.

Variable set_iter : gset string → list string.
Variable dict_iter : ∀ V, gmap string V → list (string * V).

(** Iterating over a set yields each member once, iterating over a
    dictionary each item once. *)
Hypothesis set_iter_perm : ∀ X, set_iter X ≡ₚ elements X.
Hypothesis dict_iter_perm : ∀ V (m : gmap string V), dict_iter V m ≡ₚ map_to_list m.

Lemma for_each_log conn course act (mk : string → string → line) teachers w :
  (∀ t, mk course t = line_of_change (Change course act t)) →
  for_each teachers (λ teacher,
    print (mk course teacher) ;;; log_teacher_change conn course act teacher) w
  = (Returned tt, record_changes (Change course act <$> teachers) w).
Proof.
  intros Hmk. revert w. induction teachers as [|t teachers IH]; intros w.
  - by rewrite record_changes_nil.
  - cbn [for_each]. unfold bind at 1. unfold bind at 1.
    unfold print, log_teacher_change, modify. rewrite IH.
    f_equal. destruct w. unfold record_changes, add_row, add_line. simpl.
    by rewrite Hmk, <- !app_assoc.
Qed.

Lemma compare_course_run old_list conn item w :
  compare_course set_iter old_list conn item w
  = (Returned tt, record_changes (course_changes set_iter old_list item) w).
Proof.
  destruct item as [course new_teachers]. unfold compare_course, course_changes.
  unfold bind at 1. rewrite (for_each_log conn course removed LRemoved) by (by intros []).
  rewrite (for_each_log conn course added LAdded) by (by intros []).
  by rewrite record_changes_app.
Qed.

Lemma for_each_compare_course old_list conn items w :
  for_each items (compare_course set_iter old_list conn) w
  = (Returned tt, record_changes (items ≫= course_changes set_iter old_list) w).
Proof.
  revert w. induction items as [|item items IH]; intros w.
  - by rewrite record_changes_nil.
  - cbn [for_each]. unfold bind at 1. rewrite compare_course_run, IH.
    by rewrite record_changes_app.
Qed.

(** [compare_teachers] always returns, having inserted the rows of [diff]. *)
Lemma compare_teachers_run old_list new_list conn w :
  compare_teachers set_iter dict_iter old_list new_list conn w
  = (Returned tt, record_changes (diff set_iter dict_iter old_list new_list) w).
Proof. apply for_each_compare_course. Qed.

Lemma logged_compare_teachers old_list new_list conn w :
  logged (compare_teachers set_iter dict_iter old_list new_list conn) w
  = diff set_iter dict_iter old_list new_list.
Proof. unfold logged. rewrite compare_teachers_run. apply new_rows_record_changes. Qed.

Lemma elem_of_set_iter t X : t ∈ set_iter X ↔ t ∈ X.
Proof. by rewrite set_iter_perm, elem_of_elements. Qed.

Lemma elem_of_dict_iter {V} (m : gmap string V) k v :
  (k, v) ∈ dict_iter V m ↔ m !! k = Some v.
Proof. by rewrite dict_iter_perm, elem_of_map_to_list. Qed.

Lemma NoDup_dict_iter_keys {V} (m : gmap string V) : NoDup (dict_iter V m).*1.
Proof. rewrite dict_iter_perm. apply NoDup_fst_map_to_list. Qed.

Lemma elem_of_course_changes old_list course new_teachers c a t :
  Change c a t ∈ course_changes set_iter old_list (course, new_teachers) ↔
  c = course ∧
  match a with
  | removed => t ∈ members old_list course ∧ t ∉ new_teachers
  | added => t ∈ new_teachers ∧ t ∉ members old_list course
  end.
Proof.
  unfold course_changes, members. rewrite elem_of_app, !list_elem_of_fmap.
  setoid_rewrite elem_of_set_iter. setoid_rewrite elem_of_difference.
  split.
  - intros [(t' & [= -> -> ->] & ?)|(t' & [= -> -> ->] & ?)]; done.
  - intros [-> H]. destruct a; [left | right]; by exists t.
Qed.

Lemma elem_of_diff old_list new_list c a t :
  Change c a t ∈ diff set_iter dict_iter old_list new_list ↔
  ∃ new_teachers, new_list !! c = Some new_teachers ∧
    match a with
    | removed => t ∈ members old_list c ∧ t ∉ new_teachers
    | added => t ∈ new_teachers ∧ t ∉ members old_list c
    end.
Proof.
  unfold diff. rewrite list_elem_of_bind. split.
  - intros ([course new_teachers] & Hin & Hitem).
    apply elem_of_course_changes in Hin as [-> Hin].
    apply elem_of_dict_iter in Hitem. by exists new_teachers.
  - intros (new_teachers & Hlookup & Hin). exists (c, new_teachers).
    split; [by apply elem_of_course_changes | by apply elem_of_dict_iter].
Qed.

Lemma course_changes_course old_list item r :
  r ∈ course_changes set_iter old_list item → ch_course r = item.1.
Proof.
  destruct item as [course new_teachers]. unfold course_changes.
  rewrite elem_of_app, !list_elem_of_fmap. by intros [(? & -> & _)|(? & -> & _)].
Qed.

(** Within the rows of one course, the removals come first. *)
Lemma course_changes_order old_list item i j r r' :
  course_changes set_iter old_list item !! i = Some r →
  course_changes set_iter old_list item !! j = Some r' →
  ch_action r = added → ch_action r' = removed → (j < i)%nat.
Proof.
  destruct item as [course new_teachers]. unfold course_changes.
  rewrite !lookup_app_Some.
  intros [Hi|[Hi _]] [Hj|[_ Hj]] Hadded Hremoved.
  - apply list_lookup_fmap_Some in Hi as (? & -> & ?). done.
  - apply list_lookup_fmap_Some in Hi as (? & -> & ?). done.
  - apply lookup_lt_Some in Hj. lia.
  - apply list_lookup_fmap_Some in Hj as (? & -> & ?). done.
Qed.

Lemma rows_order old_list (items : list (string * gset string)) i j r r' :
  NoDup items.*1 →
  (items ≫= course_changes set_iter old_list) !! i = Some r →
  (items ≫= course_changes set_iter old_list) !! j = Some r' →
  ch_course r = ch_course r' →
  ch_action r = added → ch_action r' = removed → (j < i)%nat.
Proof.
  intros Hnodup. revert i j.
  induction items as [|item items IH]; intros i j; [done |].
  apply NoDup_cons in Hnodup as [Hfresh Hnodup].
  rewrite bind_cons, !lookup_app_Some.
  intros [Hi|[Hlen Hi]] [Hj|[Hlen' Hj]] Hcourse Hadded Hremoved.
  - by eapply course_changes_order.
  - exfalso. apply Hfresh.
    apply list_elem_of_lookup_2, course_changes_course in Hi.
    apply list_elem_of_lookup_2, list_elem_of_bind in Hj as (item' & Hin & Hitem').
    apply course_changes_course in Hin.
    apply list_elem_of_fmap. exists item'. split; [congruence | done].
  - apply lookup_lt_Some in Hj. lia.
  - specialize (IH Hnodup _ _ Hi Hj Hcourse Hadded Hremoved). lia.
Qed.

Lemma dict_of_members_foldl {V} (l : list (string * V)) (acc : gmap string V) :
  foldl (λ d kv, <[kv.1 := kv.2]> d) acc l = list_to_map (reverse l) ∪ acc.
Proof.
  revert acc. induction l as [|[k v] l IH]; intros acc; simpl.
  - by rewrite (left_id_L ∅ (∪)).
  - rewrite IH, reverse_cons, list_to_map_app. simpl.
    rewrite <- (assoc_L (∪)). f_equal.
    by rewrite insert_empty, <- insert_union_singleton_l.
Qed.

(** Loading the members a dictionary was written as gives it back. *)
Lemma dict_of_members_dict_iter {V} (m : gmap string V) :
  dict_of_members (dict_iter V m) = m.
Proof.
  unfold dict_of_members. rewrite dict_of_members_foldl, (right_id_L ∅ (∪)).
  rewrite <- (list_to_map_to_list m) at 2. symmetry.
  apply list_to_map_proper; [apply NoDup_fst_map_to_list |].
  by rewrite reverse_Permutation, dict_iter_perm.
Qed.

Lemma list_to_set_set_iter (X : gset string) : list_to_set (set_iter X) = X.
Proof. apply set_eq. intros t. by rewrite elem_of_list_to_set, elem_of_set_iter. Qed.

(** C1, as amended: the rows [compare_teachers] inserts are exactly one
    [removed] row for every course [c] of the new snapshot and every [t] in
    [old[c]] but not in [new[c]], and one [added] row for every course [c]
    of the new snapshot and every [t] in [new[c]] but not in [old[c]]
    (a course missing from [old] counting as empty); nothing else. *)
Theorem compare_teachers_rows old_list new_list conn w c a t :
  Change c a t ∈ logged (compare_teachers set_iter dict_iter old_list new_list conn) w ↔
  ∃ new_teachers, new_list !! c = Some new_teachers ∧
    match a with
    | removed => t ∈ members old_list c ∧ t ∉ new_teachers
    | added => t ∈ new_teachers ∧ t ∉ members old_list c
    end.
Proof. rewrite logged_compare_teachers. apply elem_of_diff. Qed.

(** C2: a course that is a key of the old snapshot and not of the new one
    has no row among those [compare_teachers] inserts, whatever its old
    instructors were. *)
Theorem compare_teachers_dropped_course old_list new_list conn w c r :
  is_Some (old_list !! c) → new_list !! c = None →
  r ∈ logged (compare_teachers set_iter dict_iter old_list new_list conn) w →
  ch_course r ≠ c.
Proof.
  intros _ Hnew Hin. destruct r as [c' a t].
  rewrite logged_compare_teachers in Hin.
  apply elem_of_diff in Hin as (new_teachers & Hlookup & _).
  simpl. congruence.
Qed.

(** C3: saving a snapshot and loading it again gives back the same mapping:
    the same courses, each with the same set of instructors, whatever the
    order in which the sets and the dictionary were written. *)
Theorem load_after_save (teachers : snapshot) w :
  (save_teachers_list set_iter dict_iter teachers w).1 = Returned tt ∧
  (load_teachers_list (save_teachers_list set_iter dict_iter teachers w).2).1
  = Returned (Some teachers).
Proof.
  split; [done |].
  unfold save_teachers_list, modify, load_teachers_list, bind, inspect, ret. simpl.
  rewrite dict_of_members_dict_iter. do 2 f_equal.
  apply map_eq. intros course. rewrite !lookup_fmap.
  destruct (teachers !! course) as [X|]; simpl; [|done].
  by rewrite list_to_set_set_iter.
Qed.

(** Comparing a snapshot with itself inserts nothing. *)
Lemma diff_same (teachers : snapshot) : diff set_iter dict_iter teachers teachers = [].
Proof.
  apply elem_of_nil_inv. intros [c a t] (new_teachers & Hlookup & Hin)%elem_of_diff.
  unfold members in Hin. rewrite Hlookup in Hin. by destruct a, Hin.
Qed.

(** Among the rows [compare_teachers] inserts, every [removed] row of a
    course comes before every [added] row of that course. *)
Lemma compare_teachers_order old_list new_list conn w c i j t t' :
  logged (compare_teachers set_iter dict_iter old_list new_list conn) w !! i
    = Some (Change c added t) →
  logged (compare_teachers set_iter dict_iter old_list new_list conn) w !! j
    = Some (Change c removed t') →
  (j < i)%nat.
Proof.
  rewrite logged_compare_teachers. unfold diff. intros Hi Hj.
  by eapply (rows_order old_list (dict_iter _ new_list)); [apply NoDup_dict_iter_keys |..].
Qed.

End Diff.

(** ** Fetching *)

Section Fetch.

Variable server : request → reply.
Variable API_KEY : string.
Variable as_completed :
  list (resource * outcome (gset string)) → list (resource * outcome (gset string)).
Variable repr_headers : list (string * string) → string.

(** [as_completed] yields every future handed to it, once. *)
Hypothesis as_completed_perm : ∀ futures, as_completed futures ≡ₚ futures.

Lemma send_run r w :
  send server r w
  = (match server r with
     | TransportError => Raised ConnectionError
     | Response status items link => Returned (status, items, link)
     end, add_requests [r] w).
Proof. unfold send, bind, modify. by destruct (server r). Qed.

Lemma requests_get_run url headers params w :
  requests_get server url headers params w
  = match headers with
    | PyHeaders h => send server (Request url h params) w
    | PyInt n =>
        if n =? 0 then send server (Request url [] params) w else (Raised AttributeError, w)
    end.
Proof. unfold requests_get. destruct headers as [n|h]; [by destruct (n =? 0) | done]. Qed.

(** One turn of the loop. *)
Lemma paginate_step fuel headers params url items w :
  PyStr.truthy url = true →
  paginate server (S fuel) headers params (Some url) items w
  = match requests_get server url headers params w with
    | (Returned (status, page, link), w') =>
        if (400 <=? status) && (status <? 600) then (Raised (HTTPError status), w')
        else paginate server fuel headers params (get_next_link link) (items ++ page) w'
    | (Raised e, w') => (Raised e, w')
    | (OutOfFuel, w') => (OutOfFuel, w')
    end.
Proof.
  intros Hurl. cbn [paginate]. rewrite Hurl. unfold bind at 1.
  destruct (requests_get server url headers params w) as [[[[status page] link]|e|] w'];
    [|done..].
  unfold bind, raise_for_status. by destruct ((400 <=? status) && (status <? 600)).
Qed.

Lemma paginate_stop fuel headers params endpoint items w :
  PyStr.truthy_opt endpoint = false →
  paginate server fuel headers params endpoint items w = (Returned items, w).
Proof.
  destruct endpoint as [url|]; simpl; intros Hurl; destruct fuel; simpl; by rewrite ?Hurl.
Qed.

(** What a run of the loop sends, and that a failed request ends it with
    an exception. *)
Lemma paginate_sent fuel headers params endpoint items w :
  ∃ requests,
    (paginate server fuel headers params endpoint items w).2 = add_requests requests w ∧
    ∀ r, r ∈ requests → request_fails server r = true →
      ∃ e, (paginate server fuel headers params endpoint items w).1 = Raised e.
Proof.
  assert (∀ (o : outcome (list resource)) w', ∃ requests : list request,
    (o, w').2 = add_requests requests w' ∧
    ∀ r, r ∈ requests → request_fails server r = true → ∃ e, (o, w').1 = Raised e) as Hnone.
  { intros o w'. exists []. by rewrite add_requests_nil; split; [| intros r ?%elem_of_nil]. }
  revert endpoint items w. induction fuel as [|fuel IH]; intros endpoint items w.
  { destruct endpoint as [url|]; [| apply Hnone]. simpl.
    destruct (PyStr.truthy url); apply Hnone. }
  destruct (PyStr.truthy_opt endpoint) eqn:Hendpoint;
    [| rewrite paginate_stop by done; apply Hnone].
  destruct endpoint as [url|]; [| done]. simpl in Hendpoint.
  rewrite paginate_step, requests_get_run by done.
  assert (∀ r, ∃ requests,
    (match send server r w with
     | (Returned (status, page, link), w') =>
         if (400 <=? status) && (status <? 600) then (Raised (HTTPError status), w')
         else paginate server fuel headers params (get_next_link link) (items ++ page) w'
     | (Raised e, w') => (Raised e, w')
     | (OutOfFuel, w') => (OutOfFuel, w')
     end).2 = add_requests requests w ∧
    ∀ r', r' ∈ requests → request_fails server r' = true →
      ∃ e, (match send server r w with
            | (Returned (status, page, link), w') =>
                if (400 <=? status) && (status <? 600) then (Raised (HTTPError status), w')
                else paginate server fuel headers params (get_next_link link) (items ++ page) w'
            | (Raised e, w') => (Raised e, w')
            | (OutOfFuel, w') => (OutOfFuel, w')
            end).1 = Raised e) as Hsent.
  { intros r. rewrite send_run. unfold request_fails.
    destruct (server r) as [|status page link] eqn:Hr.
    - exists [r]. split; [done |]. by eexists.
    - destruct ((400 <=? status) && (status <? 600)) eqn:Hstatus.
      + exists [r]. split; [done |]. by eexists.
      + destruct (IH (get_next_link link) (items ++ page) (add_requests [r] w))
          as (requests & Hworld & Hfail).
        exists (r :: requests). split.
        * by rewrite Hworld, add_requests_app.
        * intros r' [->|Hin]%elem_of_cons Hfails; [| by apply (Hfail r')].
          unfold request_fails in Hfails. rewrite Hr in Hfails. congruence. }
  destruct headers as [n|h]; [destruct (n =? 0) |]; by first [apply Hsent | apply Hnone].
Qed.

Lemma fetch_courses_sent fuel headers url params w :
  ∃ requests,
    (fetch_courses server fuel headers url params w).2 = add_requests requests w ∧
    ∀ r, r ∈ requests → request_fails server r = true →
      ∃ e, (fetch_courses server fuel headers url params w).1 = Raised e.
Proof. apply paginate_sent. Qed.

Lemma fetch_instructors_for_course_sent fuel headers course_id w :
  ∃ requests,
    (fetch_instructors_for_course server repr_headers fuel headers course_id w).2
      = add_requests requests w ∧
    ∀ r, r ∈ requests → request_fails server r = true →
      ∃ e, (fetch_instructors_for_course server repr_headers fuel headers course_id w).1
           = Raised e.
Proof.
  unfold fetch_instructors_for_course, instructors_loop, bind.
  destruct (paginate_sent fuel headers instructors_params
    (Some (API_URL +:+ "/courses/" +:+ py_format repr_headers course_id +:+ "/users")) [] w)
    as (requests & Hworld & Hfail).
  exists requests.
  destruct (paginate _ _ _ _ _ _ _) as [[instructors|e|] w']; simpl in *;
    (split; [done |]); intros r Hin Hfails;
    destruct (Hfail r Hin Hfails) as [e' ?]; by eauto.
Qed.

(** The tasks: what they send, and that a failed request leaves a future
    that raises. *)
Lemma submit_all_sent fuel headers courses w :
  ∃ requests,
    (submit_all server repr_headers fuel headers courses w).2 = add_requests requests w ∧
    ∀ r, r ∈ requests → request_fails server r = true →
      ∃ course e,
        (course, Raised e) ∈ (submit_all server repr_headers fuel headers courses w).1.
Proof.
  revert w. induction courses as [|course courses IH]; intros w.
  { exists []. rewrite add_requests_nil. split; [done | by intros r ?%elem_of_nil]. }
  cbn [submit_all].
  destruct (fetch_instructors_for_course_sent fuel headers (PyInt (res_id course)) w)
    as (requests1 & Hworld1 & Hfail1).
  destruct (fetch_instructors_for_course _ _ _ _ _ w) as [o w1]. simpl in Hworld1, Hfail1.
  destruct (IH w1) as (requests2 & Hworld2 & Hfail2).
  destruct (submit_all _ _ _ _ _ w1) as [futures w2]. simpl in Hworld2, Hfail2.
  exists (requests1 ++ requests2). simpl. split.
  - by rewrite Hworld2, Hworld1, add_requests_app.
  - intros r [Hin|Hin]%elem_of_app Hfails.
    + destruct (Hfail1 r Hin Hfails) as [e ->]. exists course, e. by left.
    + destruct (Hfail2 r Hin Hfails) as (course' & e & ?). exists course', e. by right.
Qed.

Lemma collect_world done teachers w : (collect done teachers w).2 = w.
Proof.
  revert teachers. induction done as [|[course [names|e|]] done IH]; intros teachers;
    simpl; by rewrite ?IH.
Qed.

(** A future that raises keeps the loop from returning a snapshot. *)
Lemma collect_raised done teachers w course e :
  (course, Raised e) ∈ done →
  (collect done teachers w).1 = OutOfFuel ∨ ∃ e', (collect done teachers w).1 = Raised e'.
Proof.
  revert teachers. induction done as [|[course' [names|e'|]] done IH]; intros teachers Hin.
  - by apply elem_of_nil in Hin.
  - apply elem_of_cons in Hin as [[=]|Hin]. simpl. by apply IH.
  - right. by exists e'.
  - by left.
Qed.

Lemma fetch_current_teachers_sent fuel w :
  ∃ requests,
    (fetch_current_teachers server API_KEY as_completed repr_headers fuel w).2
      = add_requests requests w ∧
    ∀ r, r ∈ requests → request_fails server r = true →
      (fetch_current_teachers server API_KEY as_completed repr_headers fuel w).1 = OutOfFuel ∨
      ∃ e, (fetch_current_teachers server API_KEY as_completed repr_headers fuel w).1
           = Raised e.
Proof.
  unfold fetch_current_teachers, bind.
  destruct (fetch_courses_sent fuel
    (PyHeaders [("Authorization", "Bearer " +:+ API_KEY)])
    (API_URL +:+ "/accounts/" +:+ ACCOUNT_ID +:+ "/courses") courses_params w)
    as (requests1 & Hworld1 & Hfail1).
  destruct (fetch_courses _ _ _ _ _ w) as [[courses|e|] w1]; simpl in Hworld1, Hfail1.
  - destruct (submit_all_sent fuel (PyHeaders [("Authorization", "Bearer " +:+ API_KEY)])
      courses w1) as (requests2 & Hworld2 & Hfail2).
    destruct (submit_all _ _ _ _ _ w1) as [futures w2]. simpl in Hworld2, Hfail2.
    exists (requests1 ++ requests2).
    destruct (existsb _ futures); simpl.
    + split; [by rewrite Hworld2, Hworld1, add_requests_app | by left].
    + split; [by rewrite collect_world, Hworld2, Hworld1, add_requests_app |].
      intros r [Hin|Hin]%elem_of_app Hfails.
      * by destruct (Hfail1 r Hin Hfails).
      * destruct (Hfail2 r Hin Hfails) as (course & e & Hfuture).
        apply (collect_raised _ _ _ course e). by rewrite as_completed_perm.
  - exists requests1. split; [done |]. right. by exists e.
  - exists requests1. split; [done |]. by left.
Qed.

(** The listing is fetched page by page and put together in order. *)
Lemma paginate_serves h params pages :
  ∀ fuel url items w,
    serves server h params url pages → (length pages ≤ fuel)%nat →
    (paginate server fuel (PyHeaders h) params (Some url) items w).1
    = Returned (items ++ concat pages).
Proof.
  induction pages as [|page rest IH]; intros fuel url items w; [done |].
  intros (Hurl & status & link & Hserver & Hstatus & Hnext) Hfuel.
  destruct fuel as [|fuel]; [simpl in Hfuel; lia |].
  rewrite paginate_step, requests_get_run, send_run, Hserver, Hstatus by done.
  destruct rest as [|page' rest].
  - rewrite Hnext, paginate_stop by done. simpl. by rewrite app_nil_r.
  - destruct Hnext as (next & -> & Hrest).
    rewrite (IH fuel next _ _ Hrest) by (simpl in Hfuel |- *; lia).
    cbn [concat]. by rewrite <- app_assoc.
Qed.

(** *** The whole run *)

Variable set_iter : gset string → list string.
Variable dict_iter : ∀ V, gmap string V → list (string * V).

Lemma main_run fuel w :
  main server API_KEY set_iter dict_iter as_completed repr_headers fuel w
  = if db_reachable w then
      match fetch_current_teachers server API_KEY as_completed repr_headers fuel
              (set_db_open true (add_line LStarted w)) with
      | (Returned current_teachers, w') =>
          (Returned tt, finish set_iter dict_iter current_teachers w')
      | (Raised e, w') => (Raised e, w')
      | (OutOfFuel, w') => (OutOfFuel, w')
      end
    else (Returned tt, add_line LConnectFailed (add_line LDbError (add_line LStarted w))).
Proof.
  unfold main, create_db_connection, print, load_teachers_list, save_teachers_list.
  unfold bind, modify, inspect, ret. cbn [db_reachable add_line].
  destruct (db_reachable w); [|done].
  destruct (fetch_current_teachers _ _ _ _ _ _) as [[current_teachers|e|] w']; [|done..].
  unfold finish. destruct (snapshot_file w') as [doc|]; [|done].
  by rewrite compare_teachers_run.
Qed.


Lemma sent_add_requests {A} (m : M A) requests w :
  (m w).2 = add_requests requests w → sent m w = requests.
Proof. unfold sent. intros ->. apply new_requests_add_requests. Qed.




(** C4: when the listing that starts at the endpoint consists of a
    sequence of pages, each linking to the next and the last to none, and
    the fuel covers them, [fetch_courses] returns the items of all pages
    put together in page order, duplicates included, and so does the loop
    of [fetch_instructors_for_course], whose names the function then
    collects; for a single page the result is the items of that page. *)
Theorem paginated_fetch_concat h params url pages fuel w :
  serves server h params url pages → (length pages ≤ fuel)%nat →
  (fetch_courses server fuel (PyHeaders h) url params w).1 = Returned (concat pages) ∧
  (∀ course_id, url = users_url course_id → params = instructors_params →
     (instructors_loop server repr_headers fuel (PyHeaders h) (PyInt course_id) w).1
       = Returned (concat pages) ∧
     (fetch_instructors_for_course server repr_headers fuel (PyHeaders h) (PyInt course_id) w).1
       = Returned (list_to_set (res_name <$> concat pages))) ∧
  (∀ page, pages = [page] →
     (fetch_courses server fuel (PyHeaders h) url params w).1 = Returned page).
Proof.
  intros Hserves Hfuel.
  pose proof (paginate_serves h params pages fuel url [] w Hserves Hfuel) as Hrun.
  split; [exact Hrun |]. split.
  - intros course_id -> ->.
    assert ((instructors_loop server repr_headers fuel (PyHeaders h) (PyInt course_id) w).1
            = Returned (concat pages)) as Hloop by exact Hrun.
    split; [exact Hloop |].
    unfold fetch_instructors_for_course, bind.
    destruct (instructors_loop _ _ _ _ _ w) as [o w']. simpl in Hloop. by subst o.
  - intros page ->. unfold fetch_courses. rewrite Hrun. simpl. by rewrite app_nil_r.
Qed.


(** C7: without a stored snapshot [load_teachers_list] returns [None], and
    a run whose fetch returns then compares nothing: it prints that there is
    no previous data, writes the fetched snapshot to the file and leaves the
    table as it was. *)
Theorem first_run_seeds_baseline fuel w current_teachers w' :
  db_reachable w = true →
  snapshot_file w = None →
  fetch_current_teachers server API_KEY as_completed repr_headers fuel
    (set_db_open true (add_line LStarted w)) = (Returned current_teachers, w') →
  load_teachers_list w = (Returned None, w) ∧
  load_teachers_list w' = (Returned None, w') ∧
  main server API_KEY set_iter dict_iter as_completed repr_headers fuel w
    = (Returned tt,
       add_line LFinished (set_db_open false
         (write_file (dict_iter _ (set_iter <$> current_teachers))
            (add_line LNoPrevious w')))) ∧
  logged (main server API_KEY set_iter dict_iter as_completed repr_headers fuel) w = [] ∧
  new_lines w (main server API_KEY set_iter dict_iter as_completed repr_headers fuel w).2
    = [LStarted; LNoPrevious; LFinished].
Proof.
  intros Hdb Hfile Hfetch.
  destruct (fetch_current_teachers_sent fuel (set_db_open true (add_line LStarted w)))
    as (requests & Hworld & _).
  rewrite Hfetch in Hworld. simpl in Hworld. subst w'.
  unfold logged. rewrite main_run, Hdb, Hfetch.
  unfold load_teachers_list, bind, inspect, finish. simpl. rewrite Hfile.
  repeat split.
  - unfold new_rows. simpl. by rewrite drop_all.
  - unfold new_lines. simpl. by rewrite <- !app_assoc, drop_app_length.
Qed.

(** C9: when the store cannot be reached the run returns at once: it
    prints three lines, sends no request, inserts no row and leaves the
    snapshot file alone. *)
Theorem unreachable_store_stops_run fuel w :
  db_reachable w = false →
  main server API_KEY set_iter dict_iter as_completed repr_headers fuel w
    = (Returned tt, add_line LConnectFailed (add_line LDbError (add_line LStarted w))) ∧
  sent (main server API_KEY set_iter dict_iter as_completed repr_headers fuel) w = [] ∧
  logged (main server API_KEY set_iter dict_iter as_completed repr_headers fuel) w = [] ∧
  snapshot_file (main server API_KEY set_iter dict_iter as_completed repr_headers fuel w).2
    = snapshot_file w ∧
  db_open (main server API_KEY set_iter dict_iter as_completed repr_headers fuel w).2
    = db_open w.
Proof.
  intros Hdb. unfold sent, logged, new_requests, new_rows.
  rewrite main_run, Hdb. simpl. by rewrite !drop_all.
Qed.


End Fetch.

(** * The claims at sample inputs *)

Lemma iter_items_perm V (m : gmap string V) : iter_items V m ≡ₚ map_to_list m.
Proof. done. Qed.

Lemma iter_items_rev_perm V (m : gmap string V) : iter_items_rev V m ≡ₚ map_to_list m.
Proof. apply reverse_Permutation. Qed.

Lemma elements_perm (X : gset string) : elements X ≡ₚ elements X.
Proof. done. Qed.

Lemma in_submission_order_perm futures : in_submission_order futures ≡ₚ futures.
Proof. done. Qed.

(** The scenarios of the specification. *)
Example diff_added :
  diff elements iter_items {[ "CS101" := {[ "Alice" ]} ]} {[ "CS101" := {[ "Alice"; "Bob" ]} ]}
  = [Change "CS101" added "Bob"].
Proof. vm_compute. reflexivity. Qed.

Example diff_removed :
  diff elements iter_items {[ "CS101" := {[ "Alice"; "Bob" ]} ]} {[ "CS101" := {[ "Bob" ]} ]}
  = [Change "CS101" removed "Alice"].
Proof. vm_compute. reflexivity. Qed.

Example diff_new_course :
  diff elements iter_items ∅ {[ "CS102" := {[ "Carol" ]} ]} = [Change "CS102" added "Carol"].
Proof. vm_compute. reflexivity. Qed.

Example diff_sample :
  logged (compare_teachers elements iter_items sample_old sample_new Conn) fresh_world
  = [Change "CS101" removed "Alice"; Change "CS101" added "Carol"; Change "CS102" added "Eve"].
Proof. vm_compute. reflexivity. Qed.

Example run_sample :
  (main sample_server sample_key elements iter_items in_submission_order
     sample_repr_headers 5 fresh_world).1 = Returned tt.
Proof. vm_compute. reflexivity. Qed.

(** Membership in a concrete set, by evaluation. *)
Ltac by_evaluation := apply (bool_decide_unpack _); vm_compute; exact I.

(** C1 as first stated fails for a course missing from the new snapshot:
    Alice is in [old["CS101"]] and not in [new["CS101"]], taken as empty, and
    no row is inserted. *)
Lemma compare_teachers_rows_counterexample :
  "Alice" ∈ members {[ "CS101" := {[ "Alice" ]} ]} "CS101" ∧
  ("Alice" ∉ members ∅ "CS101") ∧
  logged (compare_teachers elements iter_items {[ "CS101" := {[ "Alice" ]} ]} ∅ Conn)
    fresh_world = [].
Proof. split; [by_evaluation |]. split; [by_evaluation | reflexivity]. Qed.

Lemma compare_teachers_rows_witness :
  Change "CS101" removed "Alice"
    ∈ logged (compare_teachers elements iter_items sample_old sample_new Conn) fresh_world.
Proof.
  apply (compare_teachers_rows elements iter_items elements_perm iter_items_perm).
  eexists. split; [reflexivity |]. split; by_evaluation.
Defined.

Lemma compare_teachers_dropped_course_witness :
  Forall (λ r, ch_course r ≠ "CS200")
    (logged (compare_teachers elements iter_items sample_old sample_new Conn) fresh_world).
Proof.
  apply Forall_forall. intros r Hin.
  apply (compare_teachers_dropped_course elements iter_items elements_perm iter_items_perm
           sample_old sample_new Conn fresh_world "CS200" r); [by eexists | reflexivity | done].
Defined.

Lemma load_after_save_witness :
  (load_teachers_list
     (save_teachers_list elements iter_items_rev sample_new fresh_world).2).1
  = Returned (Some sample_new).
Proof.
  apply (load_after_save elements iter_items_rev elements_perm iter_items_rev_perm).
Defined.

(** C5, as amended: for a Link header made of comma-separated pieces, each
    either an entry [<url>; rel="relation"] whose URL and relation hold no
    comma and no double quote, or other text that holds no comma and not the
    text [rel="next"], [get_next_link] returns the URL of the first entry
    whose relation is [next], provided that URL holds no semicolon and does
    not begin or end with an angle bracket, and [None] when there is no such
    entry; an absent or empty header gives [None].  Being a total function,
    it raises on no header. *)
Theorem get_next_link_selects_next pieces :
  Forall well_formed pieces →
  get_next_link (Some (PyStr.join "," (render <$> pieces))) = select_next pieces ∧
  get_next_link None = None ∧
  get_next_link (Some "") = None.
Proof. intros Hwf. split; [by apply get_next_link_render | done]. Qed.

Lemma get_next_link_selects_next_witness :
  get_next_link (Some (PyStr.join "," (render <$> sample_pieces))) = Some courses_url_page2.
Proof.
  refine (proj1 (get_next_link_selects_next sample_pieces _)).
  repeat constructor; by intros [=].
Defined.

(** C5 as first stated fails on a URL with a semicolon, which is cut short,
    and on text that is no entry but holds [rel="next"], which is taken for
    the link instead of being skipped. *)
Lemma get_next_link_counterexample :
  get_next_link (Some (link_entry "https://canvas.test/courses;v=2?page=2" "next"))
    = Some "https://canvas.test/courses" ∧
  (∀ url relation, "oops " +:+ rel_next ≠ link_entry url relation) ∧
  get_next_link
    (Some (("oops " +:+ rel_next) +:+ "," +:+ link_entry "https://canvas.test/page2" "next"))
    = Some ("oops " +:+ rel_next).
Proof. split; [reflexivity |]. split; [by intros url relation [=] | reflexivity]. Qed.

(** C8: among the rows [compare_teachers] inserts, every [removed] row of a
    course comes before every [added] row of the same course; the rows of two
    courses come in the order in which the dictionary is iterated, which
    differs between two iteration orders. *)
Theorem compare_teachers_removed_then_added
    (set_iter : gset string → list string)
    (dict_iter : ∀ V, gmap string V → list (string * V)) :
  (∀ V (m : gmap string V), dict_iter V m ≡ₚ map_to_list m) →
  (∀ old_list new_list conn w c i j t t',
     logged (compare_teachers set_iter dict_iter old_list new_list conn) w !! i
       = Some (Change c added t) →
     logged (compare_teachers set_iter dict_iter old_list new_list conn) w !! j
       = Some (Change c removed t') →
     (j < i)%nat) ∧
  (∃ (iter1 iter2 : ∀ V, gmap string V → list (string * V)) old_list new_list r1 r2,
     (∀ V (m : gmap string V), iter1 V m ≡ₚ map_to_list m) ∧
     (∀ V (m : gmap string V), iter2 V m ≡ₚ map_to_list m) ∧
     ch_course r1 ≠ ch_course r2 ∧
     logged (compare_teachers elements iter1 old_list new_list Conn) fresh_world = [r1; r2] ∧
     logged (compare_teachers elements iter2 old_list new_list Conn) fresh_world = [r2; r1]).
Proof.
  intros Hperm. split.
  - intros old_list new_list conn w c i j t t'. by apply compare_teachers_order.
  - exists iter_items, iter_items_rev, ∅, {[ "CS101" := {[ "Bob" ]}; "CS102" := {[ "Eve" ]} ]},
      (Change "CS101" added "Bob"), (Change "CS102" added "Eve").
    split; [apply iter_items_perm |]. split; [apply iter_items_rev_perm |].
    split; [done |]. split; vm_compute; reflexivity.
Qed.

Lemma compare_teachers_removed_then_added_witness :
  logged (compare_teachers elements iter_items sample_old sample_new Conn) fresh_world !! 1%nat
    = Some (Change "CS101" added "Carol") ∧
  logged (compare_teachers elements iter_items sample_old sample_new Conn) fresh_world !! 0%nat
    = Some (Change "CS101" removed "Alice") ∧
  (0 < 1)%nat.
Proof.
  assert (logged (compare_teachers elements iter_items sample_old sample_new Conn)
            fresh_world !! 1%nat = Some (Change "CS101" added "Carol")) as Hadded
    by (vm_compute; reflexivity).
  assert (logged (compare_teachers elements iter_items sample_old sample_new Conn)
            fresh_world !! 0%nat = Some (Change "CS101" removed "Alice")) as Hremoved
    by (vm_compute; reflexivity).
  split; [exact Hadded |]. split; [exact Hremoved |].
  exact (proj1 (compare_teachers_removed_then_added elements iter_items iter_items_perm)
           _ _ _ _ _ _ _ _ _ Hadded Hremoved).
Defined.

Lemma paginated_fetch_concat_witness :
  (fetch_courses sample_server 2 (PyHeaders sample_headers) courses_url courses_params
     fresh_world).1
  = Returned [Resource 11 "CS101"; Resource 12 "CS102"; Resource 12 "CS102";
              Resource 13 "CS103"].
Proof.
  refine (proj1 (paginated_fetch_concat sample_server sample_repr_headers sample_headers
                   courses_params courses_url
                   [[Resource 11 "CS101"; Resource 12 "CS102"];
                    [Resource 12 "CS102"; Resource 13 "CS103"]] 2 fresh_world _ _)).
  - split; [reflexivity |]. do 2 eexists. split; [reflexivity |]. split; [reflexivity |].
    eexists. split; [reflexivity |].
    split; [reflexivity |]. do 2 eexists. split; [reflexivity |]. split; reflexivity.
  - simpl. lia.
Defined.


Lemma first_run_seeds_baseline_witness :
  snapshot_file (main sample_server sample_key elements iter_items in_submission_order
                   sample_repr_headers 5 fresh_world).2
    = Some [("CS103", []); ("CS101", ["Alice"; "Bob"]); ("CS102", ["Carol"])] ∧
  logged (main sample_server sample_key elements iter_items in_submission_order
            sample_repr_headers 5) fresh_world = [].
Proof.
  edestruct (first_run_seeds_baseline sample_server sample_key in_submission_order
               sample_repr_headers in_submission_order_perm elements iter_items
               5 fresh_world) as (_ & _ & Hmain & Hlogged & _);
    [reflexivity | reflexivity | reflexivity |].
  split; [| exact Hlogged]. rewrite Hmain. vm_compute. reflexivity.
Defined.

Lemma unreachable_store_stops_run_witness :
  main sample_server sample_key elements iter_items in_submission_order sample_repr_headers
    5 offline_world
    = (Returned tt, MkWorld false false [] None [] [LStarted; LDbError; LConnectFailed]) ∧
  sent (main sample_server sample_key elements iter_items in_submission_order
          sample_repr_headers 5) offline_world = [].
Proof.
  destruct (unreachable_store_stops_run sample_server sample_key in_submission_order
              sample_repr_headers elements iter_items 5 offline_world eq_refl)
    as (Hmain & Hsent & _).
  by split.
Defined.


(** * Further properties *)

(** ** More on the diff *)

Section DiffMore.

Variable set_iter : gset string → list string.
Variable dict_iter : ∀ V, gmap string V → list (string * V).
Hypothesis set_iter_perm : ∀ X, set_iter X ≡ₚ elements X.
Hypothesis dict_iter_perm : ∀ V (m : gmap string V), dict_iter V m ≡ₚ map_to_list m.

Lemma NoDup_set_iter X : NoDup (set_iter X).
Proof. rewrite set_iter_perm. apply NoDup_elements. Qed.

Lemma NoDup_course_changes old_list item :
  NoDup (course_changes set_iter old_list item).
Proof.
  destruct item as [course new_teachers]. unfold course_changes.
  apply NoDup_app. split; [| split].
  - apply NoDup_fmap_2; [by intros t t' [=] | apply NoDup_set_iter].
  - intros r (t & -> & _)%list_elem_of_fmap (t' & [=] & _)%list_elem_of_fmap.
  - apply NoDup_fmap_2; [by intros t t' [=] | apply NoDup_set_iter].
Qed.

Lemma NoDup_diff old_list new_list : NoDup (diff set_iter dict_iter old_list new_list).
Proof.
  unfold diff. apply NoDup_bind.
  - intros [c1 X1] [c2 X2] r Hin1 Hin2 Hr1 Hr2.
    apply course_changes_course in Hr1, Hr2. simpl in Hr1, Hr2.
    apply (elem_of_dict_iter dict_iter dict_iter_perm) in Hin1, Hin2. congruence.
  - intros item _. apply NoDup_course_changes.
  - eapply NoDup_fmap_1, (NoDup_dict_iter_keys dict_iter dict_iter_perm).
Qed.

(** X1: comparing a snapshot with itself inserts no row. *)
Theorem compare_teachers_same_snapshot (teachers : snapshot) conn w :
  logged (compare_teachers set_iter dict_iter teachers teachers conn) w = [].
Proof.
  rewrite logged_compare_teachers.
  by apply (diff_same set_iter dict_iter set_iter_perm dict_iter_perm).
Qed.

(** X2: no row is inserted twice by one call of [compare_teachers]. *)
Theorem compare_teachers_rows_distinct old_list new_list conn w :
  NoDup (logged (compare_teachers set_iter dict_iter old_list new_list conn) w).
Proof. rewrite logged_compare_teachers. apply NoDup_diff. Qed.

End DiffMore.


Lemma compare_teachers_same_snapshot_witness :
  logged (compare_teachers elements iter_items_rev sample_new sample_new Conn) fresh_world = [].
Proof.
  apply (compare_teachers_same_snapshot elements iter_items_rev elements_perm
           iter_items_rev_perm).
Defined.

Lemma compare_teachers_rows_distinct_witness :
  NoDup (logged (compare_teachers elements iter_items sample_old sample_new Conn) fresh_world).
Proof.
  apply (compare_teachers_rows_distinct elements iter_items elements_perm iter_items_perm).
Defined.

(** ** More on [get_next_link] *)

Section NextLinkMore.

Local Arguments String.append !_ _ /.

Lemma split_cons sep c rest :
  PyStr.split sep (String c rest)
  = if Ascii.eqb c sep then "" :: PyStr.split sep rest
    else String c (default "" (head (PyStr.split sep rest))) :: tail (PyStr.split sep rest).
Proof.
  simpl. destruct (Ascii.eqb c sep); [done |].
  pose proof (split_not_nil sep rest). by destruct (PyStr.split sep rest).
Qed.

(** A text without the separator starts a text exactly when it starts the
    first piece of that text. *)
Lemma startswith_first_piece sep pat s :
  PyStr.char_in sep pat = false →
  PyStr.startswith pat s = PyStr.startswith pat (default "" (head (PyStr.split sep s))).
Proof.
  revert s. induction pat as [|a pat IH]; intros s Hpat; [by destruct s |].
  cbn [PyStr.char_in] in Hpat. apply orb_false_iff in Hpat as [Ha Hpat].
  destruct s as [|c rest]; [done |].
  rewrite split_cons. destruct (Ascii.eqb_spec c sep) as [->|Hc]; simpl.
  - by rewrite Ascii.eqb_sym, Ha.
  - by rewrite (IH rest Hpat).
Qed.

(** A text without the separator occurs in a text exactly when it occurs in
    one of its pieces. *)
Lemma contains_split sep pat s :
  PyStr.char_in sep pat = false →
  PyStr.contains pat s = existsb (PyStr.contains pat) (PyStr.split sep s).
Proof.
  intros Hpat. induction s as [|c rest IH]; [simpl; by rewrite !orb_false_r |].
  rewrite contains_cons, split_cons.
  destruct (Ascii.eqb_spec c sep) as [->|Hc].
  - cbn [existsb]. rewrite <- IH. f_equal.
    destruct pat as [|a pat]; [done |]. simpl.
    cbn [PyStr.char_in] in Hpat. apply orb_false_iff in Hpat as [Ha _].
    by rewrite Ascii.eqb_sym, Ha.
  - rewrite IH. pose proof (split_not_nil sep rest) as Hne.
    rewrite (startswith_first_piece sep pat (String c rest)) by done.
    rewrite split_cons. destruct (Ascii.eqb_spec c sep) as [|_]; [done |].
    destruct (PyStr.split sep rest) as [|piece pieces]; [done |].
    cbn [head default tail existsb]. rewrite contains_cons. by rewrite orb_assoc.
Qed.

Lemma next_in_links_is_Some links :
  is_Some (next_in_links links) ↔ existsb (PyStr.contains rel_next) links = true.
Proof.
  induction links as [|link links IH]; simpl.
  - split; [by intros [? ?] | done].
  - destruct (PyStr.contains rel_next link); [| done]. split; [done | by eexists].
Qed.

(** X4: [get_next_link] returns a link exactly when the header holds the text
    [rel="next"]; every other header, the empty one included, gives [None]. *)
Theorem get_next_link_is_Some h :
  is_Some (get_next_link (Some h)) ↔ PyStr.contains rel_next h = true.
Proof.
  unfold get_next_link. destruct h as [|c h].
  - split; [by intros [? ?] | done].
  - cbn [PyStr.truthy]. rewrite next_in_links_is_Some.
    by rewrite <- (contains_split "," rel_next).
Qed.

Lemma split_pieces_no_sep sep s :
  Forall (λ p, PyStr.char_in sep p = false) (PyStr.split sep s).
Proof.
  induction s as [|c rest IH]; [by repeat constructor |].
  rewrite split_cons. destruct (Ascii.eqb_spec c sep) as [->|Hc]; [by constructor |].
  pose proof (split_not_nil sep rest).
  destruct (PyStr.split sep rest) as [|piece pieces]; [done |].
  apply Forall_cons in IH as [Hpiece Hpieces]. constructor; [| done]. simpl.
  rewrite Hpiece, orb_false_r. destruct (Ascii.eqb_spec sep c); congruence.
Qed.

(** A piece holds no character that the text does not hold. *)
Lemma split_pieces_chars sep c s p :
  p ∈ PyStr.split sep s → PyStr.char_in c s = false → PyStr.char_in c p = false.
Proof.
  revert p. induction s as [|d rest IH]; intros p.
  - by intros ->%list_elem_of_singleton.
  - rewrite split_cons. cbn [PyStr.char_in]. intros Hin [Hd Hrest]%orb_false_iff.
    pose proof (split_not_nil sep rest).
    destruct (Ascii.eqb d sep).
    + apply elem_of_cons in Hin as [->|Hin]; [done | by apply IH].
    + destruct (PyStr.split sep rest) as [|piece pieces]; [done |].
      apply elem_of_cons in Hin as [->|Hin].
      * simpl. rewrite Hd. apply IH; [by left | done].
      * apply IH; [by right | done].
Qed.

Lemma char_in_lstrip c chars s :
  PyStr.char_in c s = false → PyStr.char_in c (PyStr.lstrip chars s) = false.
Proof.
  induction s as [|d rest IH]; [done |]. simpl. intros Hs.
  destruct (PyStr.char_in d chars); [| done].
  apply orb_false_iff in Hs as [_ Hs]. by apply IH.
Qed.

Lemma char_in_rstrip c chars s :
  PyStr.char_in c s = false → PyStr.char_in c (PyStr.rstrip chars s) = false.
Proof.
  induction s as [|d rest IH]; [done |]. simpl. intros [Hd Hs]%orb_false_iff.
  specialize (IH Hs). destruct (PyStr.rstrip chars rest) as [|e kept].
  - destruct (PyStr.char_in d chars); [done |]. simpl. by rewrite Hd.
  - simpl. simpl in IH. by rewrite Hd, IH.
Qed.

Lemma rstrip_rstrip chars s :
  PyStr.rstrip chars (PyStr.rstrip chars s) = PyStr.rstrip chars s.
Proof.
  induction s as [|d rest IH]; [done |]. simpl.
  destruct (PyStr.rstrip chars rest) as [|e kept] eqn:Hrest.
  - destruct (PyStr.char_in d chars) eqn:Hd; [done |]. simpl. by rewrite Hd.
  - cbn [PyStr.rstrip]. cbn [PyStr.rstrip] in IH. by rewrite IH.
Qed.

(** What [strip] returns does not begin with a stripped character. *)
Lemma lstrip_strip chars s :
  PyStr.lstrip chars (PyStr.strip chars s) = PyStr.strip chars s.
Proof.
  unfold PyStr.strip. induction s as [|d rest IH]; [done |]. simpl.
  destruct (PyStr.char_in d chars) eqn:Hd; [done |].
  simpl. destruct (PyStr.rstrip chars rest); [rewrite Hd |]; simpl; by rewrite Hd.
Qed.

Lemma strip_strip chars s : PyStr.strip chars (PyStr.strip chars s) = PyStr.strip chars s.
Proof.
  unfold PyStr.strip at 1. rewrite lstrip_strip. unfold PyStr.strip. apply rstrip_rstrip.
Qed.

Lemma next_in_links_Some links url :
  next_in_links links = Some url →
  ∃ link, link ∈ links ∧
    url = PyStr.strip "<>" (default "" (head (PyStr.split ";" link))).
Proof.
  induction links as [|link links IH]; [done |]. simpl.
  destruct (PyStr.contains rel_next link).
  - intros [= <-]. exists link. split; [by left | done].
  - intros (link' & Hin & ->)%IH. exists link'. split; [by right | done].
Qed.

(** X5: a link that [get_next_link] returns holds no comma and no semicolon
    and neither begins nor ends with an angle bracket, whatever the header. *)
Theorem get_next_link_shape link_header url :
  get_next_link link_header = Some url →
  PyStr.char_in "," url = false ∧
  PyStr.char_in ";" url = false ∧
  PyStr.strip "<>" url = url.
Proof.
  destruct link_header as [h|]; [| done]. unfold get_next_link.
  destruct (PyStr.truthy h); [| done].
  intros (link & Hlink & ->)%next_in_links_Some.
  pose proof (split_not_nil ";" link) as Hne.
  pose proof (split_pieces_no_sep ";" link) as Hsemi.
  pose proof (split_pieces_no_sep "," h) as Hcomma.
  rewrite Forall_forall in Hcomma. specialize (Hcomma link Hlink).
  pose proof (split_pieces_chars ";" "," link) as Hchars.
  destruct (PyStr.split ";" link) as [|piece pieces]; [done |].
  apply Forall_cons in Hsemi as [Hpiece _]. simpl.
  split; [| split].
  - apply char_in_rstrip, char_in_lstrip, Hchars; [by left | done].
  - by apply char_in_rstrip, char_in_lstrip.
  - apply strip_strip.
Qed.

End NextLinkMore.

Lemma get_next_link_shape_witness :
  PyStr.char_in "," courses_url_page2 = false ∧
  PyStr.char_in ";" courses_url_page2 = false ∧
  PyStr.strip "<>" courses_url_page2 = courses_url_page2.
Proof.
  apply (get_next_link_shape (Some (PyStr.join "," (render <$> sample_pieces)))).
  reflexivity.
Defined.

(** ** More on fetching *)

Section FetchMore.

Variable server : request → reply.
Variable API_KEY : string.
Variable as_completed :
  list (resource * outcome (gset string)) → list (resource * outcome (gset string)).
Variable repr_headers : list (string * string) → string.

(** The loop only adds requests to the log: what it returns and what it
    sends are the same in every world. *)
Lemma paginate_trace fuel headers params endpoint items :
  ∃ o requests, ∀ w,
    paginate server fuel headers params endpoint items w = (o, add_requests requests w).
Proof.
  revert endpoint items. induction fuel as [|fuel IH]; intros endpoint items.
  { destruct endpoint as [url|]; simpl; [destruct (PyStr.truthy url) |];
      eexists _, []; intros w; by rewrite add_requests_nil. }
  destruct (PyStr.truthy_opt endpoint) eqn:Hendpoint.
  2:{ exists (Returned items), []. intros w. by rewrite paginate_stop, add_requests_nil. }
  destruct endpoint as [url|]; [| done]. simpl in Hendpoint.
  assert (∀ r, ∃ o requests, ∀ w,
    match send server r w with
    | (Returned (status, page, link), w') =>
        if (400 <=? status) && (status <? 600) then (Raised (HTTPError status), w')
        else paginate server fuel headers params (get_next_link link) (items ++ page) w'
    | (Raised e, w') => (Raised e, w')
    | (OutOfFuel, w') => (OutOfFuel, w')
    end = (o, add_requests requests w)) as Hsend.
  { intros r. destruct (server r) as [|status page link] eqn:Hr.
    - exists (Raised ConnectionError), [r]. intros w. by rewrite send_run, Hr.
    - destruct ((400 <=? status) && (status <? 600)) eqn:Hstatus.
      + exists (Raised (HTTPError status)), [r]. intros w. by rewrite send_run, Hr, Hstatus.
      + destruct (IH (get_next_link link) (items ++ page)) as (o & requests & Hrun).
        exists o, (r :: requests). intros w.
        by rewrite send_run, Hr, Hstatus, Hrun, add_requests_app. }
  destruct headers as [n|h].
  - destruct (n =? 0) eqn:Hn.
    + destruct (Hsend (Request url [] params)) as (o & requests & Hrun).
      exists o, requests. intros w.
      by rewrite paginate_step, requests_get_run, Hn, Hrun by done.
    + exists (Raised AttributeError), []. intros w.
      by rewrite paginate_step, requests_get_run, Hn, add_requests_nil by done.
  - destruct (Hsend (Request url h params)) as (o & requests & Hrun).
    exists o, requests. intros w. by rewrite paginate_step, requests_get_run, Hrun by done.
Qed.

Lemma fetch_instructors_for_course_trace fuel headers course_id :
  ∃ o requests, ∀ w,
    fetch_instructors_for_course server repr_headers fuel headers course_id w
    = (o, add_requests requests w).
Proof.
  unfold fetch_instructors_for_course, instructors_loop, bind.
  destruct (paginate_trace fuel headers instructors_params
    (Some (API_URL +:+ "/courses/" +:+ py_format repr_headers course_id +:+ "/users")) [])
    as ([instructors|e|] & requests & Hrun);
    eexists _, requests; intros w; by rewrite Hrun.
Qed.

Lemma submit_all_trace fuel headers courses :
  ∃ futures requests, ∀ w,
    submit_all server repr_headers fuel headers courses w
    = (futures, add_requests requests w).
Proof.
  induction courses as [|course courses IH].
  { exists [], []. intros w. by rewrite add_requests_nil. }
  destruct (fetch_instructors_for_course_trace fuel headers (PyInt (res_id course)))
    as (o & requests1 & Hrun1).
  destruct IH as (futures & requests2 & Hrun2).
  exists ((course, o) :: futures), (requests1 ++ requests2). intros w.
  cbn [submit_all]. by rewrite Hrun1, Hrun2, add_requests_app.
Qed.

Lemma collect_trace done teachers :
  ∃ o, ∀ w, collect done teachers w = (o, w).
Proof.
  revert teachers. induction done as [|[course [names|e|]] done IH]; intros teachers;
    simpl; by eauto.
Qed.

Lemma fetch_current_teachers_trace fuel :
  ∃ o requests, ∀ w,
    fetch_current_teachers server API_KEY as_completed repr_headers fuel w
    = (o, add_requests requests w).
Proof.
  unfold fetch_current_teachers, fetch_courses, bind.
  destruct (paginate_trace fuel (PyHeaders [("Authorization", "Bearer " +:+ API_KEY)])
    courses_params (Some (API_URL +:+ "/accounts/" +:+ ACCOUNT_ID +:+ "/courses")) [])
    as ([courses|e|] & requests1 & Hrun1).
  - destruct (submit_all_trace fuel (PyHeaders [("Authorization", "Bearer " +:+ API_KEY)])
      courses) as (futures & requests2 & Hrun2).
    destruct (existsb (λ f, is_out_of_fuel f.2) futures) eqn:Hhang.
    + exists OutOfFuel, (requests1 ++ requests2). intros w.
      by rewrite Hrun1, Hrun2, Hhang, add_requests_app.
    + destruct (collect_trace (as_completed futures) ∅) as (o & Hcollect).
      exists o, (requests1 ++ requests2). intros w.
      by rewrite Hrun1, Hrun2, Hhang, Hcollect, add_requests_app.
  - exists (Raised e), requests1. intros w. by rewrite Hrun1.
  - exists OutOfFuel, requests1. intros w. by rewrite Hrun1.
Qed.

Lemma paginate_self_link h params url status page link :
  PyStr.truthy url = true →
  server (Request url h params) = Response status page link →
  (400 <=? status) && (status <? 600) = false →
  get_next_link link = Some url →
  ∀ fuel items w,
    paginate server fuel (PyHeaders h) params (Some url) items w
    = (OutOfFuel, add_requests (replicate fuel (Request url h params)) w).
Proof.
  intros Hurl Hserver Hstatus Hnext. induction fuel as [|fuel IH]; intros items w.
  - simpl. by rewrite Hurl, add_requests_nil.
  - rewrite paginate_step, requests_get_run, send_run, Hserver, Hstatus, Hnext by done.
    by rewrite IH, add_requests_app.
Qed.

(** X6: nothing stops the loop when a page names itself as the next page:
    whatever the bound on the iterations, [fetch_courses] does not end within
    it and has asked for the page once per iteration. *)
Theorem fetch_courses_self_link h params url status page link fuel w :
  PyStr.truthy url = true →
  server (Request url h params) = Response status page link →
  (400 <=? status) && (status <? 600) = false →
  get_next_link link = Some url →
  fetch_courses server fuel (PyHeaders h) url params w
  = (OutOfFuel, add_requests (replicate fuel (Request url h params)) w).
Proof. intros. by eapply paginate_self_link. Qed.






Lemma paginate_serves_requests h params pages :
  ∀ fuel url items w,
    serves server h params url pages → (length pages ≤ fuel)%nat →
    ∃ requests,
      (paginate server fuel (PyHeaders h) params (Some url) items w).2
        = add_requests requests w ∧
      length requests = length pages ∧
      Forall (λ r, request_fails server r = false) requests.
Proof.
  induction pages as [|page rest IH]; intros fuel url items w; [done |].
  intros (Hurl & status & link & Hserver & Hstatus & Hnext) Hfuel.
  destruct fuel as [|fuel]; [simpl in Hfuel; lia |].
  rewrite paginate_step, requests_get_run, send_run, Hserver, Hstatus by done.
  assert (request_fails server (Request url h params) = false) as Hok
    by (unfold request_fails; by rewrite Hserver).
  destruct rest as [|page' rest].
  - rewrite Hnext, paginate_stop by done. exists [Request url h params].
    split; [done |]. split; [done | by repeat constructor].
  - destruct Hnext as (next & -> & Hrest).
    destruct (IH fuel next (items ++ page) (add_requests [Request url h params] w) Hrest)
      as (requests & Hworld & Hlength & Hall); [simpl in Hfuel |- *; lia |].
    exists (Request url h params :: requests). split; [| split].
    + by rewrite Hworld, add_requests_app.
    + simpl. by rewrite Hlength.
    + by constructor.
Qed.

(** X8: a listing of pages that link one to the next is fetched with one
    request per page, none of them failing. *)
Theorem fetch_courses_one_request_per_page h params url pages fuel w :
  serves server h params url pages → (length pages ≤ fuel)%nat →
  length (sent (fetch_courses server fuel (PyHeaders h) url params) w) = length pages ∧
  Forall (λ r, request_fails server r = false)
    (sent (fetch_courses server fuel (PyHeaders h) url params) w).
Proof.
  intros Hserves Hfuel.
  destruct (paginate_serves_requests h params pages fuel url [] w Hserves Hfuel)
    as (requests & Hworld & Hlength & Hall).
  by rewrite (sent_add_requests (fetch_courses server fuel (PyHeaders h) url params)
                requests w Hworld).
Qed.

(** X9: [fetch_current_teachers] reads nothing but the upstream and changes
    nothing but the request log: from any two worlds it ends the same way and
    sends the same requests, and it leaves the table, the snapshot file, the
    console and the connection as they were. *)
Theorem fetch_current_teachers_frame fuel w w0 :
  (fetch_current_teachers server API_KEY as_completed repr_headers fuel w).1
    = (fetch_current_teachers server API_KEY as_completed repr_headers fuel w0).1 ∧
  sent (fetch_current_teachers server API_KEY as_completed repr_headers fuel) w
    = sent (fetch_current_teachers server API_KEY as_completed repr_headers fuel) w0 ∧
  table (fetch_current_teachers server API_KEY as_completed repr_headers fuel w).2 = table w ∧
  snapshot_file (fetch_current_teachers server API_KEY as_completed repr_headers fuel w).2
    = snapshot_file w ∧
  console (fetch_current_teachers server API_KEY as_completed repr_headers fuel w).2
    = console w ∧
  db_open (fetch_current_teachers server API_KEY as_completed repr_headers fuel w).2
    = db_open w.
Proof.
  destruct (fetch_current_teachers_trace fuel) as (o & requests & Hrun).
  unfold sent. rewrite !Hrun. cbn [fst snd].
  by rewrite !new_requests_add_requests.
Qed.

(** *** The snapshot that is fetched *)

Hypothesis as_completed_perm : ∀ futures, as_completed futures ≡ₚ futures.

(** The futures hold, course by course, what fetching the instructors of
    the course gives; the world a task runs in makes no difference. *)
Lemma submit_all_futures fuel headers courses w w0 :
  (submit_all server repr_headers fuel headers courses w).1
  = (λ course,
       (course,
        (fetch_instructors_for_course server repr_headers fuel headers
           (PyInt (res_id course)) w0).1)) <$> courses.
Proof.
  revert w. induction courses as [|course courses IH]; intros w; [done |].
  cbn [submit_all fmap list_fmap].
  destruct (fetch_instructors_for_course_trace fuel headers (PyInt (res_id course)))
    as (o & requests & Hrun).
  rewrite !Hrun. specialize (IH (add_requests requests w)).
  destruct (submit_all _ _ _ _ _ (add_requests requests w)) as [futures w2].
  simpl in *. by rewrite IH.
Qed.

Lemma collect_keeps done teachers w snap w' name :
  collect done teachers w = (Returned snap, w') →
  is_Some (teachers !! name) → is_Some (snap !! name).
Proof.
  revert teachers. induction done as [|[course [names|e|]] done IH]; intros teachers;
    simpl; [by intros [= <- <-] | | done..].
  intros Hrun Hsome. apply (IH _ Hrun).
  destruct (decide (res_name course = name)) as [->|Hne];
    [by rewrite lookup_insert_eq | by rewrite lookup_insert_ne].
Qed.

Lemma collect_covers done teachers w snap w' course o :
  collect done teachers w = (Returned snap, w') →
  (course, o) ∈ done → is_Some (snap !! res_name course).
Proof.
  revert teachers. induction done as [|[course' [names|e|]] done IH]; intros teachers;
    simpl; [by intros _ ?%elem_of_nil | | done..].
  intros Hrun [[= -> ->]|Hin]%elem_of_cons; [| by eapply IH].
  eapply collect_keeps; [exact Hrun |]. by rewrite lookup_insert_eq.
Qed.

Lemma collect_all_returned done teachers w snap w' course o :
  collect done teachers w = (Returned snap, w') →
  (course, o) ∈ done → ∃ names, o = Returned names.
Proof.
  revert teachers. induction done as [|[course' [names|e|]] done IH]; intros teachers;
    simpl; [by intros _ ?%elem_of_nil | | done..].
  intros Hrun [[= -> ->]|Hin]%elem_of_cons; [by eexists | by eapply IH].
Qed.

Lemma collect_origin done teachers w snap w' name names :
  collect done teachers w = (Returned snap, w') →
  snap !! name = Some names →
  teachers !! name = Some names ∨
  ∃ course, (course, Returned names) ∈ done ∧ res_name course = name.
Proof.
  revert teachers. induction done as [|[course [names'|e|]] done IH]; intros teachers;
    simpl; [intros [= <- <-]; by left | | done..].
  intros Hrun Hlookup. destruct (IH _ Hrun Hlookup) as [Hin|(course' & Hin & Hname)].
  - destruct (decide (res_name course = name)) as [Heq|Hne].
    + rewrite <- Heq, lookup_insert_eq in Hin. injection Hin as ->.
      right. exists course. split; [by left | done].
    + rewrite lookup_insert_ne in Hin by done. by left.
  - right. exists course'. split; [by right | done].
Qed.

Lemma collect_skips done teachers w snap w' name :
  collect done teachers w = (Returned snap, w') →
  name ∉ (λ f, res_name f.1) <$> done →
  snap !! name = teachers !! name.
Proof.
  revert teachers. induction done as [|[course [names|e|]] done IH]; intros teachers;
    simpl; [by intros [= <- <-] | | done..].
  intros Hrun [Hne Hnotin]%not_elem_of_cons. simpl in Hne.
  rewrite (IH _ Hrun Hnotin). by rewrite lookup_insert_ne.
Qed.

Lemma collect_distinct done teachers w snap w' course names :
  collect done teachers w = (Returned snap, w') →
  NoDup ((λ f, res_name f.1) <$> done) →
  (course, Returned names) ∈ done →
  snap !! res_name course = Some names.
Proof.
  revert teachers. induction done as [|[course' [names'|e|]] done IH]; intros teachers;
    simpl; [by intros _ _ ?%elem_of_nil | | done..].
  intros Hrun [Hfresh Hnodup]%NoDup_cons [[= -> ->]|Hin]%elem_of_cons; [| by eapply IH].
  rewrite (collect_skips _ _ _ _ _ _ Hrun Hfresh). by rewrite lookup_insert_eq.
Qed.

(** X10: when [fetch_current_teachers] returns a snapshot, its keys are the
    names of the fetched courses, every entry is the set of instructors
    fetched for a course of that name, and with no two courses sharing a name
    every course has the entry fetched for it, in whatever order the tasks
    complete. *)
Theorem fetch_current_teachers_snapshot fuel w courses w1 teachers w' :
  fetch_courses server fuel (PyHeaders [("Authorization", "Bearer " +:+ API_KEY)])
    (API_URL +:+ "/accounts/" +:+ ACCOUNT_ID +:+ "/courses") courses_params w
    = (Returned courses, w1) →
  fetch_current_teachers server API_KEY as_completed repr_headers fuel w
    = (Returned teachers, w') →
  (∀ name, is_Some (teachers !! name) ↔ ∃ course, course ∈ courses ∧ res_name course = name) ∧
  (∀ name names, teachers !! name = Some names →
     ∃ course, course ∈ courses ∧ res_name course = name ∧
       ∀ w0, (fetch_instructors_for_course server repr_headers fuel
                (PyHeaders [("Authorization", "Bearer " +:+ API_KEY)])
                (PyInt (res_id course)) w0).1 = Returned names) ∧
  (NoDup (res_name <$> courses) →
   ∀ course, course ∈ courses →
     ∃ names, teachers !! res_name course = Some names ∧
       ∀ w0, (fetch_instructors_for_course server repr_headers fuel
                (PyHeaders [("Authorization", "Bearer " +:+ API_KEY)])
                (PyInt (res_id course)) w0).1 = Returned names).
Proof.
  intros Hcourses. unfold fetch_current_teachers, bind. rewrite Hcourses.
  pose proof (submit_all_futures fuel
    (PyHeaders [("Authorization", "Bearer " +:+ API_KEY)]) courses w1) as Hfutures.
  destruct (submit_all _ _ _ _ _ w1) as [futures w2]. simpl in Hfutures.
  destruct (existsb _ futures); [done |]. intros Hcollect.
  assert (∀ course o, (course, o) ∈ as_completed futures ↔
            course ∈ courses ∧
            ∀ w0, (fetch_instructors_for_course server repr_headers fuel
                     (PyHeaders [("Authorization", "Bearer " +:+ API_KEY)])
                     (PyInt (res_id course)) w0).1 = o) as Hin.
  { intros course o. rewrite as_completed_perm. split.
    - intros Hf. split.
      + rewrite (Hfutures w1) in Hf.
        by apply list_elem_of_fmap in Hf as (course' & [= -> _] & ?).
      + intros w0. rewrite (Hfutures w0) in Hf.
        by apply list_elem_of_fmap in Hf as (course' & [= -> ->] & ?).
    - intros [Hcourse Ho]. rewrite (Hfutures w1). apply list_elem_of_fmap.
      exists course. by rewrite (Ho w1). }
  assert (∀ course, course ∈ courses →
            (course, (fetch_instructors_for_course server repr_headers fuel
               (PyHeaders [("Authorization", "Bearer " +:+ API_KEY)])
               (PyInt (res_id course)) w1).1) ∈ as_completed futures) as Hmem.
  { intros course Hcourse. apply Hin. split; [done |]. intros w0.
    destruct (fetch_instructors_for_course_trace fuel
      (PyHeaders [("Authorization", "Bearer " +:+ API_KEY)])
      (PyInt (res_id course))) as (o & requests & Hrun). by rewrite !Hrun. }
  split; [| split].
  - intros name. split.
    + intros [names Hlookup].
      destruct (collect_origin _ _ _ _ _ _ _ Hcollect Hlookup)
        as [Hempty|(course & Hf & Hname)]; [by rewrite lookup_empty in Hempty |].
      exists course. split; [by apply (Hin course (Returned names)) | done].
    + intros (course & Hcourse & <-).
      by eapply (collect_covers _ _ _ _ _ course _ Hcollect), Hmem.
  - intros name names Hlookup.
    destruct (collect_origin _ _ _ _ _ _ _ Hcollect Hlookup)
      as [Hempty|(course & Hf & Hname)]; [by rewrite lookup_empty in Hempty |].
    exists course. apply Hin in Hf as [Hcourse Ho]. by split.
  - intros Hnodup course Hcourse.
    pose proof (Hmem course Hcourse) as Hf.
    destruct (collect_all_returned _ _ _ _ _ _ _ Hcollect Hf) as [names Hnames].
    rewrite Hnames in Hf. exists names. split.
    + eapply collect_distinct; [exact Hcollect | | exact Hf].
      rewrite as_completed_perm, (Hfutures w1), <- list_fmap_compose. exact Hnodup.
    + by apply Hin in Hf as [_ Ho].
Qed.

(** *** More on the whole run *)

Variable set_iter : gset string → list string.
Variable dict_iter : ∀ V, gmap string V → list (string * V).



(** X13: when the fetch raises, the run ends with that exception where the
    fetch stopped: the connection that was opened is never closed, and
    nothing is printed, inserted or written after the start line. *)
Theorem failed_fetch_leaves_connection_open fuel w e w' :
  db_reachable w = true →
  fetch_current_teachers server API_KEY as_completed repr_headers fuel
    (set_db_open true (add_line LStarted w)) = (Raised e, w') →
  main server API_KEY set_iter dict_iter as_completed repr_headers fuel w = (Raised e, w') ∧
  db_open w' = true ∧
  console w' = console w ++ [LStarted] ∧
  table w' = table w ∧
  snapshot_file w' = snapshot_file w.
Proof.
  intros Hdb Hfetch. rewrite main_run, Hdb, Hfetch.
  destruct (fetch_current_teachers_trace fuel) as (o & requests & Hrun).
  rewrite Hrun in Hfetch. by injection Hfetch as -> <-.
Qed.

Hypothesis set_iter_perm : ∀ X, set_iter X ≡ₚ elements X.
Hypothesis dict_iter_perm : ∀ V (m : gmap string V), dict_iter V m ≡ₚ map_to_list m.




End FetchMore.

(** ** The further properties at sample inputs *)

Lemma fetch_courses_self_link_witness :
  fetch_courses looping_server 3 (PyHeaders sample_headers) courses_url courses_params
    fresh_world
  = (OutOfFuel,
     add_requests (replicate 3 (Request courses_url sample_headers courses_params))
       fresh_world).
Proof.
  eapply (fetch_courses_self_link looping_server); reflexivity.
Defined.


Lemma sample_server_serves :
  serves sample_server sample_headers courses_params courses_url
    [[Resource 11 "CS101"; Resource 12 "CS102"]; [Resource 12 "CS102"; Resource 13 "CS103"]].
Proof.
  split; [reflexivity |]. do 2 eexists. split; [reflexivity |]. split; [reflexivity |].
  eexists. split; [reflexivity |].
  split; [reflexivity |]. do 2 eexists. split; [reflexivity |]. split; reflexivity.
Qed.

Lemma fetch_courses_one_request_per_page_witness :
  length (sent (fetch_courses sample_server 4 (PyHeaders sample_headers) courses_url
                  courses_params) fresh_world) = 2%nat.
Proof.
  refine (proj1 (fetch_courses_one_request_per_page sample_server sample_headers
                   courses_params courses_url _ 4 fresh_world sample_server_serves _)).
  simpl. lia.
Defined.

Lemma fetch_current_teachers_snapshot_witness :
  ∃ course,
    course ∈ [Resource 11 "CS101"; Resource 12 "CS102"; Resource 12 "CS102";
              Resource 13 "CS103"] ∧
    res_name course = "CS103" ∧
    ∀ w0, (fetch_instructors_for_course sample_server sample_repr_headers 5
             (PyHeaders [("Authorization", "Bearer " +:+ sample_key)])
             (PyInt (res_id course)) w0).1 = Returned ∅.
Proof.
  edestruct (fetch_current_teachers_snapshot sample_server sample_key in_submission_order
               sample_repr_headers in_submission_order_perm 5 fresh_world)
    as (_ & Hentry & _); [reflexivity | reflexivity |].
  apply (Hentry "CS103" ∅). vm_compute. reflexivity.
Defined.



Lemma failed_fetch_leaves_connection_open_witness :
  (main flaky_server sample_key elements iter_items in_submission_order sample_repr_headers
     5 fresh_world).1 = Raised (HTTPError 503) ∧
  db_open (main flaky_server sample_key elements iter_items in_submission_order
             sample_repr_headers 5 fresh_world).2 = true.
Proof.
  edestruct (failed_fetch_leaves_connection_open flaky_server sample_key in_submission_order
               sample_repr_headers elements iter_items 5 fresh_world)
    as (Hmain & Hopen & _); [reflexivity | vm_compute; reflexivity |].
  rewrite Hmain. by split.
Defined.


(** ** Edges of the loop *)

Section FetchEdge.

Variable server : request → reply.
Variable repr_headers : list (string * string) → string.



(** X16: a [next] entry with an empty URL ends the listing as a missing one
    does: the items of the page are returned and nothing more is
    requested. *)
Theorem fetch_courses_empty_next_link h params url status page link fuel w :
  PyStr.truthy url = true →
  server (Request url h params) = Response status page link →
  (400 <=? status) && (status <? 600) = false →
  get_next_link link = Some "" →
  fetch_courses server (S fuel) (PyHeaders h) url params w
  = (Returned page, add_requests [Request url h params] w).
Proof.
  intros Hurl Hserver Hstatus Hnext. unfold fetch_courses.
  rewrite paginate_step, requests_get_run, send_run, Hserver, Hstatus, Hnext by done.
  by rewrite paginate_stop.
Qed.


End FetchEdge.


Lemma fetch_courses_empty_next_link_witness :
  fetch_courses
    (λ _, Response 200 [Resource 11 "CS101"] (Some (link_entry "" "next")))
    1 (PyHeaders sample_headers) courses_url courses_params fresh_world
  = (Returned [Resource 11 "CS101"],
     add_requests [Request courses_url sample_headers courses_params] fresh_world).
Proof.
  eapply (fetch_courses_empty_next_link
            (λ _, Response 200 [Resource 11 "CS101"] (Some (link_entry "" "next"))));
    reflexivity.
Defined.


(** ** The order in which the tasks complete *)

Section CompletionOrder.

Variable server : request → reply.
Variable API_KEY : string.
Variable repr_headers : list (string * string) → string.
Variables order1 order2 :
  list (resource * outcome (gset string)) → list (resource * outcome (gset string)).
Hypothesis order1_perm : ∀ futures, order1 futures ≡ₚ futures.
Hypothesis order2_perm : ∀ futures, order2 futures ≡ₚ futures.

Lemma collect_total done teachers w :
  Forall (λ f : resource * outcome (gset string), ∃ names, f.2 = Returned names) done →
  ∃ snap, collect done teachers w = (Returned snap, w).
Proof.
  intros Hall. revert teachers.
  induction Hall as [|[course o] done [names Ho] _ IH]; intros teachers; [by eexists |].
  simpl in Ho. subst o. simpl. apply IH.
Qed.

(** X18: when no two courses share a name, the snapshot that
    [fetch_current_teachers] returns does not depend on the order in which
    the tasks complete. *)
Theorem fetch_current_teachers_any_order fuel w courses w1 teachers w' :
  fetch_courses server fuel (PyHeaders [("Authorization", "Bearer " +:+ API_KEY)])
    (API_URL +:+ "/accounts/" +:+ ACCOUNT_ID +:+ "/courses") courses_params w
    = (Returned courses, w1) →
  NoDup (res_name <$> courses) →
  fetch_current_teachers server API_KEY order1 repr_headers fuel w = (Returned teachers, w') →
  fetch_current_teachers server API_KEY order2 repr_headers fuel w = (Returned teachers, w').
Proof.
  intros Hcourses Hnodup. unfold fetch_current_teachers, bind. rewrite Hcourses.
  pose proof (submit_all_futures server repr_headers fuel
    (PyHeaders [("Authorization", "Bearer " +:+ API_KEY)]) courses w1 w1) as Hfutures.
  destruct (submit_all _ _ _ _ _ w1) as [futures w2]. simpl in Hfutures.
  destruct (existsb _ futures); [done |]. intros Hcollect1.
  pose proof (collect_world (order1 futures) ∅ w2) as Hworld.
  rewrite Hcollect1 in Hworld. simpl in Hworld. subst w'.
  assert (NoDup ((λ f, res_name f.1) <$> futures)) as Hnames
    by (rewrite Hfutures, <- list_fmap_compose; exact Hnodup).
  destruct (collect_total (order2 futures) ∅ w2) as [teachers2 Hcollect2].
  { apply Forall_forall. intros [course o] Hin. rewrite order2_perm in Hin.
    apply (collect_all_returned _ _ _ _ _ course o Hcollect1). by rewrite order1_perm. }
  rewrite Hcollect2. do 2 f_equal. apply map_eq. intros name. apply option_eq. intros names.
  split; intros Hlookup.
  - destruct (collect_origin _ _ _ _ _ _ _ Hcollect2 Hlookup)
      as [Hempty|(course & Hin & <-)]; [by rewrite lookup_empty in Hempty |].
    eapply collect_distinct; [exact Hcollect1 | by rewrite order1_perm |].
    by rewrite order1_perm, <- (order2_perm futures).
  - destruct (collect_origin _ _ _ _ _ _ _ Hcollect1 Hlookup)
      as [Hempty|(course & Hin & <-)]; [by rewrite lookup_empty in Hempty |].
    eapply collect_distinct; [exact Hcollect2 | by rewrite order2_perm |].
    by rewrite order2_perm, <- (order1_perm futures).
Qed.

End CompletionOrder.

(** An upstream with three courses on one page. *)
Lemma fetch_current_teachers_any_order_witness :
  (fetch_current_teachers
     (λ r, if String.eqb (req_url r) courses_url
           then Response 200 [Resource 11 "CS101"; Resource 12 "CS102"; Resource 13 "CS103"]
                  None
           else sample_server r)
     sample_key (@reverse _) sample_repr_headers 5 fresh_world).1
  = Returned {[ "CS101" := {[ "Alice"; "Bob" ]}; "CS102" := {[ "Carol" ]}; "CS103" := ∅ ]}.
Proof.
  erewrite (fetch_current_teachers_any_order _ sample_key sample_repr_headers
              in_submission_order (@reverse _) in_submission_order_perm
              (@reverse_Permutation _) 5 fresh_world);
    [reflexivity | reflexivity | by_evaluation | vm_compute; reflexivity].
Defined.

